(** * saml_reader: the input reader [saml_reader/text_reader.py]

    A shallow embedding of the class [TextReader] and of the properties
    its constructor guarantees.  The constructor is one long method that
    assigns attributes of [self], calls collaborators that live in other
    modules (the SAML parsers, the HAR parser, the certificate class,
    the clipboard, standard input and the file system) and reacts to the
    exceptions they raise.  It is modelled in a state-and-exception
    monad over the frame of the call: the object under construction, the
    two boolean locals, and the log of the calls made to collaborators. *)

From Stdlib Require Import String Ascii List Bool Arith.
From stdpp Require Import base decidable gmap strings list.
Import ListNotations.
Local Open Scope string_scope.
Local Open Scope list_scope.

(** ** Strings *)

(** A Python string is modelled as the sequence of its code points, for
    the strings whose code points are all below 256 (the Latin-1
    range); a character of Rocq's [string] stands for one code point.
    On these code points [str.lower] moves the letters [A]-[Z] (65-90)
    and the accented capitals 192-222 other than the multiplication
    sign 215, each to the code point 32 above it, and leaves every
    other code point as it is. *)
Definition lower_char (c : ascii) : ascii :=
  let n := nat_of_ascii c in
  if (((65 <=? n) && (n <=? 90))
      || ((192 <=? n) && (n <=? 222) && negb (n =? 215)))%nat
  then ascii_of_nat (n + 32)
  else c.

(** [str.lower] *)
Fixpoint lower (s : string) : string :=
  match s with
  | EmptyString => EmptyString
  | String c s' => String (lower_char c) (lower s')
  end.

(** The line feed written [\n] in the source's literals. *)
Definition nl : string := String (ascii_of_nat 10) EmptyString.

(** [str.join] with an empty separator, as in [_read_stdin]. *)
Definition join_lines (ls : list string) : string :=
  fold_right String.append EmptyString ls.

(** ** Exceptions and results *)

(** The exception classes the module names, with the data the
    constructor reads from them.  The three SAML exceptions are taken to
    be unrelated classes, as the order of the handlers in the source
    requires: a handler for one never catches another. *)
Inductive exn : Type :=
| ValueError (msg : string)
| FileNotFoundError (msg : string)
| AttributeError (msg : string)
| SamlParsingError
| SamlResponseEncryptedError (parser : string)
| IsASamlRequest (parser : string)
| OtherError (name : string).

Inductive result (A : Type) : Type :=
| Return (a : A)
| Raise (e : exn).
Arguments Return {A} a.
Arguments Raise {A} e.

(** ** Collaborators *)

(** What the constructor asks of a parsed SAML object, an instance of
    one of the parser classes. *)
Module SamlParser.
Record t : Type := mk {
  used_relaxed_parser : bool;
  found_any_values : bool;
  get_certificate : option string
}.
End SamlParser.

(** The two alternative constructors of a parser class. *)
Record ParserClass : Type := mkParserClass {
  from_base64 : string -> result SamlParser.t;
  from_xml : string -> result SamlParser.t
}.

Inductive parser_id : Type := Standard | Regex.

(** Everything outside the module.  [Certificate] is the type of the
    handles which [saml_reader.cert.Certificate] builds; calling the
    class either yields a handle or raises. *)
Record Env (Certificate : Type) : Type := mkEnv {
  paste : result string;
  stdin_readlines : result (list string);
  open_read : option string -> result string;
  StandardSamlParser : ParserClass;
  RegexSamlParser : ParserClass;
  HarParser_parse : string -> result string;
  Certificate_new : string -> result Certificate
}.
Arguments paste {Certificate} _.
Arguments stdin_readlines {Certificate} _.
Arguments open_read {Certificate} _ _.
Arguments StandardSamlParser {Certificate} _.
Arguments RegexSamlParser {Certificate} _.
Arguments HarParser_parse {Certificate} _ _.
Arguments Certificate_new {Certificate} _ _.

(** The calls to collaborators, in the order they are made. *)
Inductive event : Type :=
| EvPaste
| EvStdin
| EvOpen (filename : option string)
| EvHarParse (data : string)
| EvFromBase64 (p : parser_id) (data : string)
| EvFromXml (p : parser_id) (data : string)
| EvUsedRelaxedParser
| EvFoundAnyValues
| EvGetCertificate
| EvCertificate (blob : string).

Definition is_parse_event (ev : event) : bool :=
  match ev with
  | EvFromBase64 _ _ | EvFromXml _ _ => true
  | _ => false
  end.

Definition is_regex_event (ev : event) : bool :=
  match ev with
  | EvFromBase64 Regex _ | EvFromXml Regex _ => true
  | _ => false
  end.

Definition is_resolver_event (ev : event) : bool :=
  match ev with
  | EvFoundAnyValues | EvGetCertificate | EvCertificate _ => true
  | _ => false
  end.

(** ** The object and the frame *)

Section Model.

Context {Certificate : Type}.
Variable env : Env Certificate.

(** The attributes of a [TextReader].  The outer [option] tells whether
    the attribute has been assigned; for [_saml] and [_cert] the inner
    one is Python's [None]. *)
Record TextReader : Type := mkTextReader {
  _errors : option (list string);
  _valid_saml : option bool;
  _parser_used : option string;
  _saml : option (option SamlParser.t);
  _valid_cert : option bool;
  _cert : option (option Certificate)
}.

Definition fresh_object : TextReader :=
  mkTextReader None None None None None None.

Definition set__errors (v : list string) (r : TextReader) : TextReader :=
  mkTextReader (Some v) (_valid_saml r) (_parser_used r) (_saml r) (_valid_cert r) (_cert r).
Definition set__valid_saml (v : bool) (r : TextReader) : TextReader :=
  mkTextReader (_errors r) (Some v) (_parser_used r) (_saml r) (_valid_cert r) (_cert r).
Definition set__parser_used (v : string) (r : TextReader) : TextReader :=
  mkTextReader (_errors r) (_valid_saml r) (Some v) (_saml r) (_valid_cert r) (_cert r).
Definition set__saml (v : option SamlParser.t) (r : TextReader) : TextReader :=
  mkTextReader (_errors r) (_valid_saml r) (_parser_used r) (Some v) (_valid_cert r) (_cert r).
Definition set__valid_cert (v : bool) (r : TextReader) : TextReader :=
  mkTextReader (_errors r) (_valid_saml r) (_parser_used r) (_saml r) (Some v) (_cert r).
Definition set__cert (v : option Certificate) (r : TextReader) : TextReader :=
  mkTextReader (_errors r) (_valid_saml r) (_parser_used r) (_saml r) (_valid_cert r) (Some v).

(** The frame of one call of [__init__]: the object, the locals
    [is_encrypted] and [is_a_response], and the calls made so far. *)
Record Frame : Type := mkFrame {
  self : TextReader;
  is_encrypted : bool;
  is_a_response : bool;
  log : list event
}.

Definition fresh_frame : Frame := mkFrame fresh_object false false [].

(** ** The monad *)

Definition M (A : Type) : Type := Frame -> result A * Frame.

#[global] Instance M_ret : MRet M := fun A a fr => (Return a, fr).

#[global] Instance M_bind : MBind M := fun A B k m fr =>
  match m fr with
  | (Return a, fr') => k a fr'
  | (Raise e, fr') => (Raise e, fr')
  end.

Definition raise {A} (e : exn) : M A := fun fr => (Raise e, fr).

(** [try: body except ...]: the handler table says which exceptions are
    caught; the others propagate. *)
Definition try_except {A} (body : M A) (handlers : exn -> option (M A)) : M A :=
  fun fr =>
    match body fr with
    | (Return a, fr') => (Return a, fr')
    | (Raise e, fr') =>
        match handlers e with
        | Some h => h fr'
        | None => (Raise e, fr')
        end
    end.

(** A call to a collaborator: logged, and its result passed on. *)
Definition call {A} (ev : event) (r : result A) : M A :=
  fun fr =>
    (r, mkFrame (self fr) (is_encrypted fr) (is_a_response fr) (log fr ++ [ev])).

Definition update_self (f : TextReader -> TextReader) : M unit :=
  fun fr =>
    (Return tt, mkFrame (f (self fr)) (is_encrypted fr) (is_a_response fr) (log fr)).

Definition set_is_encrypted (b : bool) : M unit :=
  fun fr => (Return tt, mkFrame (self fr) b (is_a_response fr) (log fr)).

Definition set_is_a_response (b : bool) : M unit :=
  fun fr => (Return tt, mkFrame (self fr) (is_encrypted fr) b (log fr)).

Definition get_is_encrypted : M bool := fun fr => (Return (is_encrypted fr), fr).
Definition get_is_a_response : M bool := fun fr => (Return (is_a_response fr), fr).

(** Reading an attribute that was never assigned raises. *)
Definition getattr {A} (name : string) (a : option A) : result A :=
  match a with
  | Some v => Return v
  | None =>
      Raise (AttributeError ("'TextReader' object has no attribute '" +:+ name +:+ "'"))
  end.

Definition read_self {A} (name : string) (proj : TextReader -> option A) : M A :=
  fun fr => (getattr name (proj (self fr)), fr).

(** [self._saml.method()]: the attribute must be assigned and must not
    be [None]. *)
Definition saml_method {A} (name : string) (ev : event) (method : SamlParser.t -> A)
  : M A :=
  saml ← read_self "_saml" _saml;
  match saml with
  | Some obj => call ev (Return (method obj))
  | None =>
      raise (AttributeError ("'NoneType' object has no attribute '" +:+ name +:+ "'"))
  end.

(** [self._errors.append(msg)] *)
Definition append_error (msg : string) : M unit :=
  errors ← read_self "_errors" _errors;
  update_self (set__errors (errors ++ [msg])).

(** ** The messages *)

Definition fallback_warning (parser_used : string) : string :=
  "WARNING: XML parsing failed. Using fallback '" +:+ parser_used +:+ "' parser. "
  +:+ "Some values may not parse correctly." +:+ nl.

Definition encrypted_advisory : string :=
  "SAML response is encrypted. Cannot parse." +:+ nl
  +:+ "Advise customer to update their identity provider "
  +:+ "to send an unencrypted SAML response.".

Definition request_advisory : string :=
  "The input data appears to be a SAML request instead of a SAML response." +:+ nl
  +:+ "Please ask the customer for the SAML response instead of the request.".

Definition no_data_message : string :=
  "Could not parse any relevant information from the input data." +:+ nl
  +:+ "Please make sure that your input contains SAML data.".

Definition no_certificate_message : string :=
  "Could not locate certificate. Identity provider info will not be available.".

(** ** The class *)

Definition VALID_INPUT_TYPES : gset string := {[ "base64"; "xml"; "har" ]}.

(** The f-string rendering of the [filename] argument. *)
Definition format_filename (filename : option string) : string :=
  default "None" filename.

Definition _read_file (filename : option string) : M string :=
  try_except
    (call (EvOpen filename) (open_read env filename))
    (fun e =>
       match e with
       | FileNotFoundError _ =>
           Some (raise (FileNotFoundError
                          ("Cannot find file specified: " +:+ format_filename filename)))
       | _ => None
       end).

Definition _read_clipboard : M string :=
  call EvPaste (paste env).

Definition _read_stdin : M string :=
  lines ← call EvStdin (stdin_readlines env);
  mret (join_lines lines).

Definition parser_class (p : parser_id) : ParserClass :=
  match p with
  | Standard => StandardSamlParser env
  | Regex => RegexSamlParser env
  end.

Definition _parse_raw_data (input_type data : string) (parser : parser_id)
  : M SamlParser.t :=
  if decide (input_type = "base64") then
    call (EvFromBase64 parser data) (from_base64 (parser_class parser) data)
  else if decide (input_type = "xml") then
    call (EvFromXml parser data) (from_xml (parser_class parser) data)
  else if decide (input_type = "har") then
    decoded ← call (EvHarParse data) (HarParser_parse env data);
    call (EvFromBase64 parser decoded) (from_base64 (parser_class parser) decoded)
  else raise (ValueError ("Invalid data type specified: " +:+ input_type)).

(** Python truth of the value [SamlParser.get_certificate] returns:
    [None] and the empty string are false. *)
Definition truthy (v : option string) : bool :=
  match v with
  | Some (String _ _) => true
  | _ => false
  end.

(** [x is not None] *)
Definition is_not_None {A} (x : option A) : bool :=
  match x with
  | Some _ => true
  | None => false
  end.

(** Lines 47-49: the declared input type. *)
Definition check_input_type (input_type : string) : M string :=
  let input_type := lower input_type in
  if decide (input_type ∉ VALID_INPUT_TYPES) then
    raise (ValueError ("Invalid input type: " +:+ input_type))
  else mret input_type.

(** Lines 51-58: the raw data. *)
Definition read_source (source : string) (filename : option string) : M string :=
  if decide (source = "clip") then _read_clipboard
  else if decide (source = "stdin") then _read_stdin
  else if decide (source = "file") then _read_file filename
  else raise (ValueError ("Invalid source: " +:+ source)).

(** Lines 60-80: the attempt with the standard parser. *)
Definition standard_attempt (input_type raw_data : string) : M unit :=
  update_self (set__valid_saml true);;
  update_self (set__parser_used "strict");;
  set_is_encrypted false;;
  set_is_a_response false;;
  try_except
    (saml ← _parse_raw_data input_type raw_data Standard;
     update_self (set__saml (Some saml));;
     relaxed ← saml_method "used_relaxed_parser" EvUsedRelaxedParser
                 SamlParser.used_relaxed_parser;
     if relaxed : bool then update_self (set__parser_used "relaxed") else mret tt)
    (fun e =>
       match e with
       | SamlParsingError =>
           Some (update_self (set__parser_used "regex"))
       | SamlResponseEncryptedError parser =>
           Some (set_is_encrypted true;;
                 update_self (set__saml None);;
                 update_self (set__valid_saml false);;
                 update_self (set__parser_used parser))
       | IsASamlRequest parser =>
           Some (set_is_a_response true;;
                 update_self (set__saml None);;
                 update_self (set__valid_saml false);;
                 update_self (set__parser_used parser))
       | _ => None
       end).

(** Lines 82-93: the attempt with the regex parser. *)
Definition regex_attempt (input_type raw_data : string) : M unit :=
  parser_used ← read_self "_parser_used" _parser_used;
  if decide (parser_used = "regex") then
    try_except
      (saml ← _parse_raw_data input_type raw_data Regex;
       update_self (set__saml (Some saml)))
      (fun e =>
         match e with
         | SamlResponseEncryptedError _ =>
             Some (set_is_encrypted true;;
                   update_self (set__saml None);;
                   update_self (set__valid_saml false))
         | IsASamlRequest _ =>
             Some (set_is_a_response true;;
                   update_self (set__saml None);;
                   update_self (set__valid_saml false))
         | _ => None
         end)
  else mret tt.

(** Lines 45-93: everything up to the end of the parse attempts. *)
Definition orchestrate (source input_type : string) (filename : option string) : M unit :=
  update_self (set__errors []);;
  input_type ← check_input_type input_type;
  raw_data ← read_source source filename;
  standard_attempt input_type raw_data;;
  regex_attempt input_type raw_data.

(** Lines 95-97: the warning about the parser used. *)
Definition warn_fallback : M unit :=
  parser_used ← read_self "_parser_used" _parser_used;
  if decide (parser_used ≠ "strict") then append_error (fallback_warning parser_used)
  else mret tt.

(** Lines 121-132: the certificate. *)
Definition certificate_step : M unit :=
  update_self (set__valid_cert false);;
  update_self (set__cert None);;
  valid_saml ← read_self "_valid_saml" _valid_saml;
  if valid_saml : bool then
    raw_cert ← saml_method "get_certificate" EvGetCertificate
                  SamlParser.get_certificate;
    (if truthy raw_cert then
       cert ← call (EvCertificate (default "" raw_cert))
                   (Certificate_new env (default "" raw_cert));
       update_self (set__cert (Some cert))
     else append_error no_certificate_message);;
    cert ← read_self "_cert" _cert;
    update_self (set__valid_cert (is_not_None cert))
  else mret tt.

(** Lines 99-132; each [return] of the source ends its branch here. *)
Definition classify : M unit :=
  encrypted ← get_is_encrypted;
  if encrypted : bool then append_error encrypted_advisory
  else
    request ← get_is_a_response;
    if request : bool then append_error request_advisory
    else
      found ← saml_method "found_any_values" EvFoundAnyValues
                 SamlParser.found_any_values;
      (if negb found then
         append_error no_data_message;;
         update_self (set__valid_saml false)
       else mret tt);;
      certificate_step.

Definition resolve : M unit :=
  warn_fallback;;
  classify.

Definition __init__ (source input_type : string) (filename : option string) : M unit :=
  orchestrate source input_type filename;;
  resolve.

(** [TextReader(source, input_type, filename)]: the new object or the
    exception that reaches the caller, with the calls that were made. *)
Definition new_TextReader (source input_type : string) (filename : option string)
  : result TextReader * list event :=
  match __init__ source input_type filename fresh_frame with
  | (Return _, fr) => (Return (self fr), log fr)
  | (Raise e, fr) => (Raise e, log fr)
  end.

(** ** The queries *)

Definition get_saml (r : TextReader) : result (option SamlParser.t) :=
  getattr "_saml" (_saml r).

Definition get_certificate (r : TextReader) : result (option Certificate) :=
  getattr "_cert" (_cert r).

Definition saml_is_valid (r : TextReader) : result bool :=
  getattr "_valid_saml" (_valid_saml r).

Definition cert_is_valid (r : TextReader) : result bool :=
  getattr "_valid_cert" (_valid_cert r).

Definition get_errors (r : TextReader) : result (list string) :=
  getattr "_errors" (_errors r).

End Model.

(** * Vocabulary of the properties

    The value a block hands back does not depend on the frame it starts
    from, so what a collaborator answers can be named once per input. *)

Section Answers.

Context {Certificate : Type}.
Variable env : Env Certificate.
Implicit Types fr : @Frame Certificate.

(** The raw data [__init__] obtains from [source], or the exception. *)
Definition acquired (source : string) (filename : option string) : result string :=
  (read_source env source filename fresh_frame).1.

Definition acquire_log (source : string) (filename : option string) : list event :=
  log (read_source env source filename fresh_frame).2.

(** What one parse attempt yields. *)
Definition attempt (input_type data : string) (parser : parser_id) : result SamlParser.t :=
  (_parse_raw_data env input_type data parser fresh_frame).1.

Definition attempt_log (input_type data : string) (parser : parser_id) : list event :=
  log (_parse_raw_data env input_type data parser fresh_frame).2.

(** The outcome the resolver dispatches on, read off the two locals in
    the order lines 99 and 107 test them. *)
Inductive outcome : Type := Success | EncryptedResponse | IsARequest.

Definition terminal_outcome (fr : @Frame Certificate) : outcome :=
  if is_encrypted fr then EncryptedResponse
  else if is_a_response fr then IsARequest
  else Success.

Definition is_fallback_warning (msg : string) : Prop :=
  exists parser_used, msg = fallback_warning parser_used.

(** A frame with more calls logged. *)
Definition logged (fr : @Frame Certificate) (evs : list event) : Frame :=
  mkFrame (self fr) (is_encrypted fr) (is_a_response fr) (log fr ++ evs).

(** The messages rule 1 contributes for a given value of [_parser_used]. *)
Definition fallback_messages (parser_used : string) : list string :=
  if decide (parser_used ≠ "strict") then [fallback_warning parser_used] else [].

(** The advisory rule 2 or rule 3 appends for an outcome. *)
Definition advisory (o : outcome) : list string :=
  match o with
  | EncryptedResponse => [encrypted_advisory]
  | IsARequest => [request_advisory]
  | Success => []
  end.

(** The terminal condition an exception of a parser stands for, with
    the tier label it carries. *)
Definition terminal_condition (e : exn) : option (outcome * string) :=
  match e with
  | SamlResponseEncryptedError label => Some (EncryptedResponse, label)
  | IsASamlRequest label => Some (IsARequest, label)
  | _ => None
  end.

(** What [cert_is_valid] raises on an object whose [_valid_cert] was
    never assigned. *)
Definition no_valid_cert_attribute : exn :=
  AttributeError "'TextReader' object has no attribute '_valid_cert'".

Definition construction_succeeded {A} (r : result A) : bool :=
  match r with
  | Return _ => true
  | Raise _ => false
  end.

(** The exceptions each [try] statement has a handler for. *)
Definition caught_by_standard_attempt (a : result SamlParser.t) : Prop :=
  match a with
  | Return _
  | Raise SamlParsingError
  | Raise (SamlResponseEncryptedError _)
  | Raise (IsASamlRequest _) => True
  | Raise _ => False
  end.

Definition caught_by_regex_attempt (a : result SamlParser.t) : Prop :=
  match a with
  | Return _
  | Raise (SamlResponseEncryptedError _)
  | Raise (IsASamlRequest _) => True
  | Raise _ => False
  end.

Definition no_regex_call (evs : list event) : Prop :=
  Forall (fun ev => is_regex_event ev = false) evs.


(** What holds of every frame the parse attempts leave behind: the four
    attributes of lines 45-93 are assigned, the error list is still
    empty, the certificate attributes are not assigned yet, and
    [_valid_saml] is false exactly when one of the two locals is set. *)
Record parsed fr : Prop := mkParsed {
  parsed_errors : _errors (self fr) = Some [];
  parsed_valid_cert : _valid_cert (self fr) = None;
  parsed_cert : _cert (self fr) = None;
  parsed_parser_used : is_Some (_parser_used (self fr));
  parsed_valid_saml :
    _valid_saml (self fr) = Some (negb (is_encrypted fr || is_a_response fr));
  parsed_saml :
    match _saml (self fr) with
    | Some (Some _) => True
    | Some None => is_encrypted fr || is_a_response fr = true
    | None => False
    end;
  parsed_log : Forall (fun ev => is_resolver_event ev = false) (log fr)
}.

(** The reports the resolver builds from a frame of the parse attempts,
    one constructor for each way through lines 95-132 that returns. *)
Inductive resolved fr : TextReader -> list event -> Prop :=
| resolved_encrypted t s :
    is_encrypted fr = true ->
    self fr = mkTextReader (Some []) (Some false) (Some t) (Some s) None None ->
    resolved fr
      (mkTextReader (Some (fallback_messages t ++ [encrypted_advisory]))
         (Some false) (Some t) (Some s) None None)
      (log fr)
| resolved_request t s :
    is_encrypted fr = false ->
    is_a_response fr = true ->
    self fr = mkTextReader (Some []) (Some false) (Some t) (Some s) None None ->
    resolved fr
      (mkTextReader (Some (fallback_messages t ++ [request_advisory]))
         (Some false) (Some t) (Some s) None None)
      (log fr)
| resolved_no_values t obj :
    is_encrypted fr = false ->
    is_a_response fr = false ->
    self fr = mkTextReader (Some []) (Some true) (Some t) (Some (Some obj)) None None ->
    SamlParser.found_any_values obj = false ->
    resolved fr
      (mkTextReader (Some (fallback_messages t ++ [no_data_message]))
         (Some false) (Some t) (Some (Some obj)) (Some false) (Some None))
      (log fr ++ [EvFoundAnyValues])
| resolved_certificate t obj cert :
    is_encrypted fr = false ->
    is_a_response fr = false ->
    self fr = mkTextReader (Some []) (Some true) (Some t) (Some (Some obj)) None None ->
    SamlParser.found_any_values obj = true ->
    truthy (SamlParser.get_certificate obj) = true ->
    Certificate_new env (default "" (SamlParser.get_certificate obj)) = Return cert ->
    resolved fr
      (mkTextReader (Some (fallback_messages t))
         (Some true) (Some t) (Some (Some obj)) (Some true) (Some (Some cert)))
      (log fr ++ [EvFoundAnyValues; EvGetCertificate;
                  EvCertificate (default "" (SamlParser.get_certificate obj))])
| resolved_no_certificate t obj :
    is_encrypted fr = false ->
    is_a_response fr = false ->
    self fr = mkTextReader (Some []) (Some true) (Some t) (Some (Some obj)) None None ->
    SamlParser.found_any_values obj = true ->
    truthy (SamlParser.get_certificate obj) = false ->
    resolved fr
      (mkTextReader (Some (fallback_messages t ++ [no_certificate_message]))
         (Some true) (Some t) (Some (Some obj)) (Some false) (Some None))
      (log fr ++ [EvFoundAnyValues; EvGetCertificate]).

End Answers.

(** ** Statements of the specification that fail on the code *)


(** The claim as the specification words it: whatever label the failure
    of the standard parser carries, the regex parser is not called. *)
Definition terminal_failure_bypasses_regex {Certificate} (env : Env Certificate)
    (source input_type : string) (filename : option string) : Prop :=
  forall data e o label,
    lower input_type ∈ VALID_INPUT_TYPES ->
    acquired env source filename = Return data ->
    attempt env (lower input_type) data Standard = Raise e ->
    terminal_condition e = Some (o, label) ->
    no_regex_call (new_TextReader env source input_type filename).2.

(** What the specification requires of the certificate step: once a
    blob is found, an object is returned whose certificate flag tells
    whether the certificate could be built. *)
Definition certificate_flag_reports_construction {Certificate} (env : Env Certificate)
    (source input_type : string) (filename : option string) : Prop :=
  forall fr obj,
    orchestrate env source input_type filename fresh_frame = (Return tt, fr) ->
    terminal_outcome fr = Success ->
    _saml (self fr) = Some (Some obj) ->
    SamlParser.found_any_values obj = true ->
    exists r evs,
      new_TextReader env source input_type filename = (Return r, evs)
      /\ In EvGetCertificate evs
      /\ if truthy (SamlParser.get_certificate obj) then
           cert_is_valid r
           = Return (construction_succeeded
                       (Certificate_new env (default "" (SamlParser.get_certificate obj))))
         else
           (exists errs, get_errors r = Return (errs ++ [no_certificate_message]))
           /\ cert_is_valid r = Return false.



(** An exception that one of the collaborators answers with: the reader
    of a source, the HAR parser, a parser class or the certificate
    class. *)
Definition raised_by_collaborator {Certificate} (env : Env Certificate)
    (filename : option string) (e : exn) : Prop :=
  paste env = Raise e
  \/ stdin_readlines env = Raise e
  \/ open_read env filename = Raise e
  \/ (exists data, HarParser_parse env data = Raise e)
  \/ (exists parser data,
        from_base64 (parser_class env parser) data = Raise e
        \/ from_xml (parser_class env parser) data = Raise e)
  \/ (exists blob, Certificate_new env blob = Raise e).

(** The claim as the specification words it: with an input type that
    lowercases into the set no [ValueError] reaches the caller, and with
    any other one does. *)
Definition valid_type_raises_no_ValueError {Certificate} (env : Env Certificate)
    (source input_type : string) (filename : option string) : Prop :=
  (lower input_type ∈ VALID_INPUT_TYPES ->
   forall msg evs,
     new_TextReader env source input_type filename <> (Raise (ValueError msg), evs))
  /\ (lower input_type ∉ VALID_INPUT_TYPES ->
      exists msg evs,
        new_TextReader env source input_type filename = (Raise (ValueError msg), evs)).

(** ** Inputs to run the constructor on *)

(** A parser class that answers the same whatever it is given. *)
Definition constant_parser (answer : result SamlParser.t) : ParserClass :=
  mkParserClass (fun _ => answer) (fun _ => answer).

(** A world where two lines arrive on standard input, no file exists,
    the HAR parser hands its input back, and the parsers and the
    certificate class answer as given.  Certificates are represented by
    the text they were built from. *)
Definition piped_env (standard regex : result SamlParser.t)
    (certificate : string -> result string) : Env string :=
  mkEnv string
    (Return "")
    (Return ["<samlp:Response>"; "</samlp:Response>"])
    (fun _ => Raise (FileNotFoundError "[Errno 2] No such file or directory"))
    (constant_parser standard)
    (constant_parser regex)
    (fun data => Return data)
    certificate.

Definition piped_data : string := "<samlp:Response></samlp:Response>".

Definition response_with_certificate : SamlParser.t :=
  SamlParser.mk false true (Some "MIIC").

Definition response_without_values : SamlParser.t :=
  SamlParser.mk false false None.

(** ** Kinds of calls *)

(** The calls that fetch the raw data. *)
Definition is_acquire_event (ev : event) : bool :=
  match ev with
  | EvPaste | EvStdin | EvOpen _ => true
  | _ => false
  end.

(** The one call [read_source] makes for a source, if any. *)
Definition source_call (source : string) (filename : option string) : list event :=
  if decide (source = "clip") then [EvPaste]
  else if decide (source = "stdin") then [EvStdin]
  else if decide (source = "file") then [EvOpen filename]
  else [].

(** The same call, addressed to another parser class. *)
Definition retarget (p : parser_id) (ev : event) : event :=
  match ev with
  | EvFromBase64 _ data => EvFromBase64 p data
  | EvFromXml _ data => EvFromXml p data
  | _ => ev
  end.

(** The calls lines 114-132 can add to a run, in order. *)
Definition resolver_calls (post : list event) : Prop :=
  post = []
  \/ post = [EvFoundAnyValues]
  \/ post = [EvFoundAnyValues; EvGetCertificate]
  \/ exists blob, blob <> "" /\ post = [EvFoundAnyValues; EvGetCertificate; EvCertificate blob].

(** What a call of a parser or of the HAR parser is given, for an input
    type and the raw data: the raw data itself, or for a HAR input what
    the HAR parser extracted from it. *)
Definition fed_from {Certificate} (env : Env Certificate)
    (input_type data : string) (ev : event) : Prop :=
  match ev with
  | EvFromXml _ d => input_type = "xml" /\ d = data
  | EvHarParse d => input_type = "har" /\ d = data
  | EvFromBase64 _ d =>
      (input_type = "base64" /\ d = data)
      \/ (input_type = "har" /\ HarParser_parse env data = Return d)
  | _ => True
  end.

(** * Properties *)

(** One step of symbolic execution: the operations of the monad, the
    assignments and the projections are computed; what the
    collaborators answer stays as it is. *)
Ltac exec :=
  cbv [mbind mret M_bind M_ret try_except call raise update_self
       set_is_encrypted set_is_a_response get_is_encrypted get_is_a_response
       read_self saml_method append_error getattr logged
       set__errors set__valid_saml set__parser_used set__saml set__valid_cert set__cert
       self is_encrypted is_a_response log
       _errors _valid_saml _parser_used _saml _valid_cert _cert
       fresh_frame fresh_object fst snd negb] in *.

Section Frames.

Context {Certificate : Type}.
Variable env : Env Certificate.
Implicit Types fr : @Frame Certificate.

Lemma read_source_frame source filename fr :
  read_source env source filename fr
  = (acquired env source filename, logged fr (acquire_log env source filename)).
Proof.
  unfold acquired, acquire_log, read_source, _read_clipboard, _read_stdin, _read_file.
  repeat case_decide; exec; cbn.
  - reflexivity.
  - destruct (stdin_readlines env); reflexivity.
  - destruct (open_read env filename) as [|[]]; reflexivity.
  - destruct fr; cbn. by rewrite app_nil_r.
Qed.

Lemma _parse_raw_data_frame input_type data parser fr :
  _parse_raw_data env input_type data parser fr
  = (attempt env input_type data parser,
     logged fr (attempt_log env input_type data parser)).
Proof.
  unfold attempt, attempt_log, _parse_raw_data.
  repeat case_decide; exec; cbn.
  - reflexivity.
  - reflexivity.
  - destruct (HarParser_parse env data); cbn; [|reflexivity].
    by rewrite <- app_assoc.
  - destruct fr; cbn. by rewrite app_nil_r.
Qed.

End Frames.

(** Symbolic execution of the constructor: run the monad, name what the
    collaborators answer, and split on every test that is left. *)
Ltac walk :=
  repeat first
    [ progress exec
    | rewrite read_source_frame
    | rewrite _parse_raw_data_frame
    | discriminate
    | congruence
    | case_decide
    | match goal with
      | H : ?x = _ |- context [match ?x with _ => _ end] => progress (rewrite H)
      | H : SamlParser.found_any_values ?o = _
        |- context [SamlParser.found_any_values ?o] => rewrite H
      | |- context [match attempt ?e ?i ?d ?p with _ => _ end] =>
          destruct (attempt e i d p) as [?|[]] eqn:?
      | |- context [match acquired ?e ?s ?f with _ => _ end] =>
          destruct (acquired e s f) eqn:?
      | |- context [if SamlParser.used_relaxed_parser ?o then _ else _] =>
          destruct (SamlParser.used_relaxed_parser o) eqn:?
      | |- context [if SamlParser.found_any_values ?o then _ else _] =>
          destruct (SamlParser.found_any_values o) eqn:?
      | |- context [if truthy ?v then _ else _] =>
          destruct (truthy v) eqn:?
      | |- context [match Certificate_new ?e ?b with _ => _ end] =>
          destruct (Certificate_new e b) eqn:?
      end ].

Section Orchestrate.

Context {Certificate : Type}.
Variable env : Env Certificate.
Implicit Types fr : @Frame Certificate.

Lemma acquire_log_events source filename :
  Forall (fun ev => is_parse_event ev = false /\ is_resolver_event ev = false)
         (acquire_log env source filename).
Proof.
  unfold acquire_log, read_source, _read_clipboard, _read_stdin, _read_file.
  repeat case_decide; exec; cbn.
  - by repeat constructor.
  - destruct (stdin_readlines env); by repeat constructor.
  - destruct (open_read env filename) as [|[]]; by repeat constructor.
  - constructor.
Qed.

Lemma attempt_log_events input_type data parser :
  Forall (fun ev => is_resolver_event ev = false
                    /\ (is_regex_event ev = true -> parser = Regex))
         (attempt_log env input_type data parser).
Proof.
  unfold attempt_log, _parse_raw_data.
  repeat case_decide; exec; cbn.
  - destruct parser; by repeat constructor.
  - destruct parser; by repeat constructor.
  - destruct (HarParser_parse env data); destruct parser; by repeat constructor.
  - constructor.
Qed.

Lemma acquire_log_no_resolver source filename :
  Forall (fun ev => is_resolver_event ev = false) (acquire_log env source filename).
Proof. eapply Forall_impl; [apply acquire_log_events|]. by intros ? []. Qed.

Lemma acquire_log_no_parse source filename :
  Forall (fun ev => is_parse_event ev = false) (acquire_log env source filename).
Proof. eapply Forall_impl; [apply acquire_log_events|]. by intros ? []. Qed.

Lemma acquire_log_no_regex source filename :
  Forall (fun ev => is_regex_event ev = false) (acquire_log env source filename).
Proof.
  eapply Forall_impl; [apply acquire_log_events|].
  intros [] []; try reflexivity; discriminate.
Qed.

Lemma attempt_log_no_resolver input_type data parser :
  Forall (fun ev => is_resolver_event ev = false) (attempt_log env input_type data parser).
Proof. eapply Forall_impl; [apply attempt_log_events|]. by intros ? []. Qed.

Lemma standard_log_no_regex input_type data :
  Forall (fun ev => is_regex_event ev = false) (attempt_log env input_type data Standard).
Proof.
  eapply Forall_impl; [apply attempt_log_events|].
  intros ev [_ H]. destruct (is_regex_event ev); [|reflexivity].
  by specialize (H eq_refl).
Qed.

Lemma orchestrate_parsed source input_type filename fr :
  orchestrate env source input_type filename fresh_frame = (Return tt, fr) ->
  parsed fr.
Proof.
  unfold orchestrate, check_input_type, standard_attempt, regex_attempt.
  walk.
  all: intros [= <-]; split; cbn; try done.
  all: repeat apply Forall_app_2;
    auto using acquire_log_no_resolver, attempt_log_no_resolver.
  all: by repeat constructor.
Qed.

(** Before the raw data is there, nothing is parsed and nothing is
    recorded. *)
Lemma orchestrate_raises_early source input_type filename e :
  lower input_type ∉ VALID_INPUT_TYPES \/ acquired env source filename = Raise e ->
  exists e' fr,
    orchestrate env source input_type filename fresh_frame = (Raise e', fr)
    /\ _errors (self fr) = Some []
    /\ Forall (fun ev => is_parse_event ev = false) (log fr)
    /\ (lower input_type ∉ VALID_INPUT_TYPES ->
        e' = ValueError ("Invalid input type: " +:+ lower input_type) /\ log fr = [])
    /\ (lower input_type ∈ VALID_INPUT_TYPES -> e' = e).
Proof.
  unfold orchestrate, check_input_type.
  intros [H|H]; walk.
  all: eexists _, _; split; [reflexivity|]; cbn.
  all: repeat split; try done; try constructor.
  all: try apply acquire_log_no_parse.
  all: try (intros; congruence).
Qed.



(** The frames the parse attempts end in, path by path. *)

Lemma orchestrate_standard_success source input_type filename data obj :
  lower input_type ∈ VALID_INPUT_TYPES ->
  acquired env source filename = Return data ->
  attempt env (lower input_type) data Standard = Return obj ->
  orchestrate env source input_type filename fresh_frame
  = (Return tt,
     mkFrame
       (mkTextReader (Some []) (Some true)
          (Some (if SamlParser.used_relaxed_parser obj then "relaxed" else "strict"))
          (Some (Some obj)) None None)
       false false
       ((acquire_log env source filename
         ++ attempt_log env (lower input_type) data Standard)
        ++ [EvUsedRelaxedParser])).
Proof.
  intros Hty Hdata Hstd.
  unfold orchestrate, check_input_type, standard_attempt, regex_attempt.
  walk; reflexivity.
Qed.

Lemma orchestrate_standard_encrypted source input_type filename data label :
  lower input_type ∈ VALID_INPUT_TYPES ->
  acquired env source filename = Return data ->
  attempt env (lower input_type) data Standard = Raise (SamlResponseEncryptedError label) ->
  label <> "regex" ->
  orchestrate env source input_type filename fresh_frame
  = (Return tt,
     mkFrame
       (mkTextReader (Some []) (Some false) (Some label) (Some None) None None)
       true false
       (acquire_log env source filename
        ++ attempt_log env (lower input_type) data Standard)).
Proof.
  intros Hty Hdata Hstd Hlabel.
  unfold orchestrate, check_input_type, standard_attempt, regex_attempt.
  walk; reflexivity.
Qed.

Lemma orchestrate_standard_request source input_type filename data label :
  lower input_type ∈ VALID_INPUT_TYPES ->
  acquired env source filename = Return data ->
  attempt env (lower input_type) data Standard = Raise (IsASamlRequest label) ->
  label <> "regex" ->
  orchestrate env source input_type filename fresh_frame
  = (Return tt,
     mkFrame
       (mkTextReader (Some []) (Some false) (Some label) (Some None) None None)
       false true
       (acquire_log env source filename
        ++ attempt_log env (lower input_type) data Standard)).
Proof.
  intros Hty Hdata Hstd Hlabel.
  unfold orchestrate, check_input_type, standard_attempt, regex_attempt.
  walk; reflexivity.
Qed.

(** After a generic failure of the standard parser the regex parser is
    tried, and [_parser_used] stays ['regex'] whatever it answers. *)
Lemma orchestrate_fallback source input_type filename data :
  lower input_type ∈ VALID_INPUT_TYPES ->
  acquired env source filename = Return data ->
  attempt env (lower input_type) data Standard = Raise SamlParsingError ->
  let evs := (acquire_log env source filename
              ++ attempt_log env (lower input_type) data Standard)
             ++ attempt_log env (lower input_type) data Regex in
  orchestrate env source input_type filename fresh_frame
  = match attempt env (lower input_type) data Regex with
    | Return obj =>
        (Return tt,
         mkFrame (mkTextReader (Some []) (Some true) (Some "regex") (Some (Some obj))
                    None None) false false evs)
    | Raise (SamlResponseEncryptedError _) =>
        (Return tt,
         mkFrame (mkTextReader (Some []) (Some false) (Some "regex") (Some None)
                    None None) true false evs)
    | Raise (IsASamlRequest _) =>
        (Return tt,
         mkFrame (mkTextReader (Some []) (Some false) (Some "regex") (Some None)
                    None None) false true evs)
    | Raise e =>
        (Raise e,
         mkFrame (mkTextReader (Some []) (Some true) (Some "regex") None
                    None None) false false evs)
    end.
Proof.
  intros Hty Hdata Hstd.
  unfold orchestrate, check_input_type, standard_attempt, regex_attempt.
  walk; reflexivity.
Qed.

End Orchestrate.

Section Resolve.

Context {Certificate : Type}.
Variable env : Env Certificate.
Implicit Types fr : @Frame Certificate.

Lemma fallback_messages_strict : fallback_messages "strict" = [].
Proof. unfold fallback_messages. by case_decide. Qed.

Lemma fallback_messages_other parser_used :
  parser_used <> "strict" ->
  fallback_messages parser_used = [fallback_warning parser_used].
Proof. intros. unfold fallback_messages. by case_decide. Qed.

(** None of the other messages can be taken for the warning: they start
    with another letter. *)
Lemma encrypted_advisory_not_warning : ~ is_fallback_warning encrypted_advisory.
Proof. intros [t H]. discriminate H. Qed.

Lemma request_advisory_not_warning : ~ is_fallback_warning request_advisory.
Proof. intros [t H]. discriminate H. Qed.

Lemma no_data_message_not_warning : ~ is_fallback_warning no_data_message.
Proof. intros [t H]. discriminate H. Qed.

Lemma no_certificate_message_not_warning : ~ is_fallback_warning no_certificate_message.
Proof. intros [t H]. discriminate H. Qed.

(** Rules 2 and 3: the advisory is appended and the method returns. *)
Lemma resolve_encrypted fr errs t :
  is_encrypted fr = true ->
  _errors (self fr) = Some errs ->
  _parser_used (self fr) = Some t ->
  resolve env fr
  = (Return tt,
     mkFrame (set__errors ((errs ++ fallback_messages t) ++ [encrypted_advisory]) (self fr))
       true (is_a_response fr) (log fr)).
Proof.
  destruct fr as [[] ? ? ?]; cbn; intros -> -> ->.
  unfold resolve, warn_fallback, classify, fallback_messages.
  walk; cbn; by rewrite ?app_nil_r.
Qed.

Lemma resolve_request fr errs t :
  is_encrypted fr = false ->
  is_a_response fr = true ->
  _errors (self fr) = Some errs ->
  _parser_used (self fr) = Some t ->
  resolve env fr
  = (Return tt,
     mkFrame (set__errors ((errs ++ fallback_messages t) ++ [request_advisory]) (self fr))
       false true (log fr)).
Proof.
  destruct fr as [[] ? ? ?]; cbn; intros -> -> -> ->.
  unfold resolve, warn_fallback, classify, fallback_messages.
  walk; cbn; by rewrite ?app_nil_r.
Qed.

(** Rule 4, and rule 5 skipped after it. *)
Lemma resolve_no_values fr errs t obj vs vc c :
  is_encrypted fr = false ->
  is_a_response fr = false ->
  self fr = mkTextReader (Some errs) vs (Some t) (Some (Some obj)) vc c ->
  SamlParser.found_any_values obj = false ->
  resolve env fr
  = (Return tt,
     mkFrame
       (mkTextReader (Some ((errs ++ fallback_messages t) ++ [no_data_message]))
          (Some false) (Some t) (Some (Some obj)) (Some false) (Some None))
       false false (log fr ++ [EvFoundAnyValues])).
Proof.
  destruct fr as [? ? ? ?]; cbn; intros -> -> -> Hfound.
  unfold resolve, warn_fallback, classify, certificate_step, fallback_messages.
  walk; cbn; by rewrite ?app_nil_r.
Qed.

(** Rule 5. *)
Lemma resolve_certificate fr errs t obj vc c :
  is_encrypted fr = false ->
  is_a_response fr = false ->
  self fr = mkTextReader (Some errs) (Some true) (Some t) (Some (Some obj)) vc c ->
  SamlParser.found_any_values obj = true ->
  let blob := default "" (SamlParser.get_certificate obj) in
  resolve env fr
  = if truthy (SamlParser.get_certificate obj) then
      match Certificate_new env blob with
      | Return cert =>
          (Return tt,
           mkFrame
             (mkTextReader (Some (errs ++ fallback_messages t)) (Some true) (Some t)
                (Some (Some obj)) (Some true) (Some (Some cert)))
             false false
             (log fr ++ [EvFoundAnyValues; EvGetCertificate; EvCertificate blob]))
      | Raise e =>
          (Raise e,
           mkFrame
             (mkTextReader (Some (errs ++ fallback_messages t)) (Some true) (Some t)
                (Some (Some obj)) (Some false) (Some None))
             false false
             (log fr ++ [EvFoundAnyValues; EvGetCertificate; EvCertificate blob]))
      end
    else
      (Return tt,
       mkFrame
         (mkTextReader (Some ((errs ++ fallback_messages t) ++ [no_certificate_message]))
            (Some true) (Some t) (Some (Some obj)) (Some false) (Some None))
         false false (log fr ++ [EvFoundAnyValues; EvGetCertificate])).
Proof.
  destruct fr as [? ? ? ?]; cbn; intros -> -> -> Hfound.
  unfold resolve, warn_fallback, classify, certificate_step, fallback_messages.
  walk; cbn; rewrite ?app_nil_r, <- ?app_assoc; reflexivity.
Qed.

Lemma parsed_shape fr :
  parsed fr ->
  exists t s,
    self fr = mkTextReader (Some []) (Some (negb (is_encrypted fr || is_a_response fr)))
                (Some t) (Some s) None None
    /\ (is_encrypted fr = false -> is_a_response fr = false -> is_Some s).
Proof.
  destruct fr as [[errs vs pu sm vc c] enc req lg]; intros [? ? ? [t ?] ? Hs ?];
    cbn in *; subst.
  destruct sm as [s|]; [|done]. exists t, s. split; [done|].
  intros -> ->. destruct s; [by eexists | done].
Qed.

Lemma resolve_resolved fr fr' :
  parsed fr ->
  resolve env fr = (Return tt, fr') ->
  resolved env fr (self fr') (log fr').
Proof.
  intros Hp. destruct (parsed_shape fr Hp) as (t & s & Hself & Hs).
  destruct (is_encrypted fr) eqn:Henc.
  { erewrite resolve_encrypted by (done || by rewrite Hself).
    intros [= <-]. rewrite Hself. cbn. by eapply resolved_encrypted. }
  destruct (is_a_response fr) eqn:Hreq.
  { erewrite resolve_request by (done || by rewrite Hself).
    intros [= <-]. rewrite Hself. cbn. by eapply resolved_request. }
  destruct Hs as [obj ->]; [done..|]. cbn in Hself.
  destruct (SamlParser.found_any_values obj) eqn:Hfound.
  - erewrite resolve_certificate by done. cbn zeta.
    destruct (truthy (SamlParser.get_certificate obj)) eqn:Htruthy.
    + destruct (Certificate_new env _) as [cert|] eqn:Hcert; intros [= <-].
      cbn. by eapply resolved_certificate.
    + intros [= <-]. cbn. by eapply resolved_no_certificate.
  - erewrite resolve_no_values by done.
    intros [= <-]. cbn. by eapply resolved_no_values.
Qed.

(** The constructor, seen from its caller, in two phases. *)
Lemma new_TextReader_phases source input_type filename :
  new_TextReader env source input_type filename
  = match orchestrate env source input_type filename fresh_frame with
    | (Return _, fr) =>
        match resolve env fr with
        | (Return _, fr') => (Return (self fr'), log fr')
        | (Raise e, fr') => (Raise e, log fr')
        end
    | (Raise e, fr) => (Raise e, log fr)
    end.
Proof.
  unfold new_TextReader, __init__, mbind, M_bind.
  by destruct (orchestrate env source input_type filename fresh_frame) as [[] ?].
Qed.

Lemma new_TextReader_resolved source input_type filename r evs :
  new_TextReader env source input_type filename = (Return r, evs) ->
  exists fr,
    orchestrate env source input_type filename fresh_frame = (Return tt, fr)
    /\ parsed fr /\ resolved env fr r evs.
Proof.
  rewrite new_TextReader_phases.
  destruct (orchestrate env source input_type filename fresh_frame)
    as [[[]|] fr] eqn:Ho; [|discriminate].
  pose proof (orchestrate_parsed _ _ _ _ _ Ho) as Hp.
  destruct (resolve env fr) as [[[]|] fr'] eqn:Hr; intros [= <- <-].
  exists fr. eauto using resolve_resolved.
Qed.

End Resolve.

(** * The behaviour of the constructor *)

Lemma elem_of_VALID_INPUT_TYPES (s : string) :
  s ∈ VALID_INPUT_TYPES <-> s = "base64" \/ s = "xml" \/ s = "har".
Proof.
  unfold VALID_INPUT_TYPES.
  rewrite !elem_of_union, !elem_of_singleton. tauto.
Qed.

Lemma terminal_outcome_success {Certificate} (fr : @Frame Certificate) :
  terminal_outcome fr = Success ->
  is_encrypted fr = false /\ is_a_response fr = false.
Proof.
  unfold terminal_outcome.
  by destruct (is_encrypted fr), (is_a_response fr).
Qed.

(** ** Runs *)

Example lower_mixed_case : lower "Base64" = "base64" /\ lower "XML" = "xml".
Proof. split; reflexivity. Qed.

(** Above the ASCII range: the capital E with acute accent (201) goes to
    the small one (233), the multiplication sign (215) and the sharp s
    (223) stay. *)
Example lower_latin1 :
  lower_char (ascii_of_nat 201) = ascii_of_nat 233
  /\ lower_char (ascii_of_nat 215) = ascii_of_nat 215
  /\ lower_char (ascii_of_nat 223) = ascii_of_nat 223.
Proof. repeat split; reflexivity. Qed.

(** A response with a certificate, piped in as base64: both flags hold
    and nothing is reported. *)
Example run_valid_response :
  new_TextReader
    (piped_env (Return response_with_certificate) (Raise SamlParsingError) Return)
    "stdin" "base64" None
  = (Return
       (mkTextReader (Some []) (Some true) (Some "strict")
          (Some (Some response_with_certificate)) (Some true) (Some (Some "MIIC"))),
     [EvStdin; EvFromBase64 Standard piped_data; EvUsedRelaxedParser;
      EvFoundAnyValues; EvGetCertificate; EvCertificate "MIIC"]).
Proof. vm_compute. reflexivity. Qed.

(** Malformed XML from which the regex parser still extracts values. *)
Example run_regex_fallback :
  new_TextReader
    (piped_env (Raise SamlParsingError) (Return response_with_certificate) Return)
    "stdin" "xml" None
  = (Return
       (mkTextReader (Some [fallback_warning "regex"]) (Some true) (Some "regex")
          (Some (Some response_with_certificate)) (Some true) (Some (Some "MIIC"))),
     [EvStdin; EvFromXml Standard piped_data; EvFromXml Regex piped_data;
      EvFoundAnyValues; EvGetCertificate; EvCertificate "MIIC"]).
Proof. vm_compute. reflexivity. Qed.

(** A request instead of a response, found in a HAR capture. *)
Example run_request :
  new_TextReader
    (piped_env (Raise (IsASamlRequest "strict")) (Raise SamlParsingError) Return)
    "stdin" "HAR" None
  = (Return
       (mkTextReader (Some [request_advisory]) (Some false) (Some "strict")
          (Some None) None None),
     [EvStdin; EvHarParse piped_data; EvFromBase64 Standard piped_data]).
Proof. vm_compute. reflexivity. Qed.

(** The regex parser failing generically: nothing handles it. *)
Example run_regex_failure :
  new_TextReader
    (piped_env (Raise SamlParsingError) (Raise SamlParsingError) Return)
    "stdin" "xml" None
  = (Raise SamlParsingError,
     [EvStdin; EvFromXml Standard piped_data; EvFromXml Regex piped_data]).
Proof. vm_compute. reflexivity. Qed.

(** ** The certificate flag implies the SAML flag *)

(** C2. Whenever the constructor returns an object, [cert_is_valid]
    answering true on it implies that [saml_is_valid] answers true: the
    certificate is never reported valid on a response that is not. *)
Theorem cert_valid_implies_saml_valid {Certificate} (env : Env Certificate)
    source input_type filename r evs :
  new_TextReader env source input_type filename = (Return r, evs) ->
  cert_is_valid r = Return true ->
  saml_is_valid r = Return true.
Proof.
  intros Hnew Hcert.
  destruct (new_TextReader_resolved env _ _ _ _ _ Hnew) as (fr & _ & _ & Hres).
  inversion Hres; subst; cbn in *; done.
Qed.

Lemma cert_valid_implies_saml_valid_witness :
  let env := piped_env (Return response_with_certificate)
                       (Return response_with_certificate) Return in
  let r := mkTextReader (Some []) (Some true) (Some "strict")
             (Some (Some response_with_certificate)) (Some true) (Some (Some "MIIC")) in
  let evs := [EvStdin; EvFromXml Standard piped_data; EvUsedRelaxedParser;
              EvFoundAnyValues; EvGetCertificate; EvCertificate "MIIC"] in
  new_TextReader env "stdin" "xml" None = (Return r, evs)
  /\ cert_is_valid r = Return true
  /\ saml_is_valid r = Return true.
Proof.
  intros env r evs.
  assert (Hnew : new_TextReader env "stdin" "xml" None = (Return r, evs))
    by (vm_compute; reflexivity).
  split; [exact Hnew|]. split; [reflexivity|].
  exact (cert_valid_implies_saml_valid env "stdin" "xml" None r evs Hnew eq_refl).
Defined.

(** ** The fallback warning *)

Lemma fallback_messages_then t tail :
  Forall (fun msg => ~ is_fallback_warning msg) tail ->
  (Exists is_fallback_warning (fallback_messages t ++ tail) <-> t <> "strict")
  /\ (t <> "strict" ->
      exists rest, fallback_messages t ++ tail = fallback_warning t :: rest
                   /\ Forall (fun msg => ~ is_fallback_warning msg) rest)
  /\ (t = "strict" ->
      Forall (fun msg => ~ is_fallback_warning msg) (fallback_messages t ++ tail)).
Proof.
  intros Htail. unfold fallback_messages. case_decide; cbn.
  - split; [|split]; [|by eexists|done].
    split; [done|]. intros _. constructor. by eexists.
  - split; [|split]; [|done..].
    split; [|done]. intros Hex. exfalso.
    rewrite Forall_Exists_neg in Htail. by apply Htail.
Qed.

Lemma resolved_errors {Certificate} (env : Env Certificate) fr r evs :
  resolved env fr r evs ->
  exists t tail,
    _parser_used (self fr) = Some t
    /\ _parser_used r = Some t
    /\ _errors r = Some (fallback_messages t ++ tail)
    /\ Forall (fun msg => ~ is_fallback_warning msg) tail.
Proof.
  intros [t s Henc Hself|t s Henc Hreq Hself|t obj Henc Hreq Hself Hfound
         |t obj cert Henc Hreq Hself Hfound Htruthy Hcert
         |t obj Henc Hreq Hself Hfound Htruthy]; rewrite Hself; cbn.
  - exists t, [encrypted_advisory].
    repeat split; repeat constructor. apply encrypted_advisory_not_warning.
  - exists t, [request_advisory].
    repeat split; repeat constructor. apply request_advisory_not_warning.
  - exists t, [no_data_message].
    repeat split; repeat constructor. apply no_data_message_not_warning.
  - exists t, []. rewrite app_nil_r. repeat split; constructor.
  - exists t, [no_certificate_message].
    repeat split; repeat constructor. apply no_certificate_message_not_warning.
Qed.

Lemma standard_success_is_strict {Certificate} (env : Env Certificate)
    source input_type filename fr data obj :
  orchestrate env source input_type filename fresh_frame = (Return tt, fr) ->
  acquired env source filename = Return data ->
  attempt env (lower input_type) data Standard = Return obj ->
  SamlParser.used_relaxed_parser obj = false ->
  _parser_used (self fr) = Some "strict".
Proof.
  intros Ho Hdata Hstd Hrelaxed.
  assert (Hty : lower input_type ∈ VALID_INPUT_TYPES).
  { destruct (decide (lower input_type ∈ VALID_INPUT_TYPES)) as [|Hno]; [done|].
    destruct (orchestrate_raises_early env source input_type filename
                (ValueError "") (or_introl Hno)) as (? & ? & Hraise & _).
    congruence. }
  rewrite (orchestrate_standard_success env _ _ _ _ _ Hty Hdata Hstd) in Ho.
  rewrite Hrelaxed in Ho. by injection Ho as <-.
Qed.

(** C4. On every object the constructor returns, the error list holds a
    fallback warning exactly when [_parser_used] is not ['strict']; the
    warning then names [_parser_used] and is the first message, no other
    message being a warning; and when the standard parser succeeds
    without its relaxed mode, [_parser_used] is ['strict'] and no
    warning is in the list. *)
Theorem fallback_warning_iff_not_strict {Certificate} (env : Env Certificate)
    source input_type filename r evs :
  new_TextReader env source input_type filename = (Return r, evs) ->
  exists t errs,
    _parser_used r = Some t
    /\ get_errors r = Return errs
    /\ (Exists is_fallback_warning errs <-> t <> "strict")
    /\ (t <> "strict" ->
        exists rest, errs = fallback_warning t :: rest
                     /\ Forall (fun msg => ~ is_fallback_warning msg) rest)
    /\ (forall data obj,
          acquired env source filename = Return data ->
          attempt env (lower input_type) data Standard = Return obj ->
          SamlParser.used_relaxed_parser obj = false ->
          t = "strict" /\ Forall (fun msg => ~ is_fallback_warning msg) errs).
Proof.
  intros Hnew.
  destruct (new_TextReader_resolved env _ _ _ _ _ Hnew) as (fr & Ho & _ & Hres).
  destruct (resolved_errors env _ _ _ Hres) as (t & tail & Hfr & Ht & Herrs & Htail).
  destruct (fallback_messages_then t tail Htail) as (Hiff & Hfirst & Hnone).
  exists t, (fallback_messages t ++ tail).
  split; [exact Ht|]. split; [unfold get_errors; by rewrite Herrs|].
  split; [exact Hiff|]. split; [exact Hfirst|].
  intros data obj Hdata Hstd Hrelaxed.
  pose proof (standard_success_is_strict env _ _ _ _ _ _ Ho Hdata Hstd Hrelaxed) as Hs.
  assert (t = "strict") as Heq by congruence. auto.
Qed.

Lemma fallback_warning_iff_not_strict_witness :
  let env := piped_env (Return response_with_certificate)
                       (Raise SamlParsingError) Return in
  let r := mkTextReader (Some []) (Some true) (Some "strict")
             (Some (Some response_with_certificate)) (Some true) (Some (Some "MIIC")) in
  let evs := [EvStdin; EvFromXml Standard piped_data; EvUsedRelaxedParser;
              EvFoundAnyValues; EvGetCertificate; EvCertificate "MIIC"] in
  new_TextReader env "stdin" "XML" None = (Return r, evs)
  /\ acquired env "stdin" None = Return piped_data
  /\ attempt env (lower "XML") piped_data Standard = Return response_with_certificate
  /\ SamlParser.used_relaxed_parser response_with_certificate = false
  /\ _parser_used r = Some "strict"
  /\ get_errors r = Return []
  /\ Forall (fun msg => ~ is_fallback_warning msg) [].
Proof.
  intros env r evs.
  assert (Hnew : new_TextReader env "stdin" "XML" None = (Return r, evs))
    by (vm_compute; reflexivity).
  assert (Hdata : acquired env "stdin" None = Return piped_data)
    by (vm_compute; reflexivity).
  assert (Hstd : attempt env (lower "XML") piped_data Standard
                 = Return response_with_certificate)
    by (vm_compute; reflexivity).
  destruct (fallback_warning_iff_not_strict env "stdin" "XML" None r evs Hnew)
    as (t & errs & Ht & Herrs & _ & _ & Hstrict).
  destruct (Hstrict piped_data response_with_certificate Hdata Hstd eq_refl)
    as [-> Hnone].
  injection Herrs as <-.
  repeat (split; [done|]). exact Hnone.
Defined.

(** ** A parse that finds no values *)

Lemma success_without_values_run {Certificate} (env : Env Certificate)
    source input_type filename fr obj :
  orchestrate env source input_type filename fresh_frame = (Return tt, fr) ->
  terminal_outcome fr = Success ->
  _saml (self fr) = Some (Some obj) ->
  SamlParser.found_any_values obj = false ->
  exists t,
    new_TextReader env source input_type filename
    = (Return
         (mkTextReader (Some (fallback_messages t ++ [no_data_message]))
            (Some false) (Some t) (Some (Some obj)) (Some false) (Some None)),
       log fr ++ [EvFoundAnyValues]).
Proof.
  intros Ho [Henc Hreq]%terminal_outcome_success Hsaml Hfound.
  destruct (parsed_shape fr (orchestrate_parsed _ _ _ _ _ Ho)) as (t & s & Hself & _).
  rewrite Henc, Hreq in Hself. rewrite Hself in Hsaml. injection Hsaml as ->.
  exists t. rewrite new_TextReader_phases, Ho.
  erewrite resolve_no_values by (done || exact Hself). reflexivity.
Qed.

(** C6. When the parse attempts end in success but the parsed object
    reports no values, the constructor returns an object whose error
    list ends with the no-relevant-data message and on which
    [saml_is_valid] answers false. *)
Theorem no_values_invalidates_saml {Certificate} (env : Env Certificate)
    source input_type filename fr obj :
  orchestrate env source input_type filename fresh_frame = (Return tt, fr) ->
  terminal_outcome fr = Success ->
  _saml (self fr) = Some (Some obj) ->
  SamlParser.found_any_values obj = false ->
  exists r evs errs,
    new_TextReader env source input_type filename = (Return r, evs)
    /\ get_errors r = Return (errs ++ [no_data_message])
    /\ saml_is_valid r = Return false.
Proof.
  intros Ho Hout Hsaml Hfound.
  destruct (success_without_values_run env _ _ _ _ _ Ho Hout Hsaml Hfound) as [t ->].
  by eexists _, _, _.
Qed.

Lemma no_values_invalidates_saml_witness :
  let env := piped_env (Return response_without_values)
                       (Return response_without_values) Return in
  let fr := mkFrame
              (mkTextReader (Some []) (Some true) (Some "strict")
                 (Some (Some response_without_values)) None None)
              false false
              [EvStdin; EvFromBase64 Standard piped_data; EvUsedRelaxedParser] in
  orchestrate env "stdin" "base64" None fresh_frame = (Return tt, fr)
  /\ terminal_outcome fr = Success
  /\ exists r evs errs,
       new_TextReader env "stdin" "base64" None = (Return r, evs)
       /\ get_errors r = Return (errs ++ [no_data_message])
       /\ saml_is_valid r = Return false.
Proof.
  intros env fr.
  assert (Ho : orchestrate env "stdin" "base64" None fresh_frame = (Return tt, fr))
    by (vm_compute; reflexivity).
  split; [exact Ho|]. split; [reflexivity|].
  exact (no_values_invalidates_saml env "stdin" "base64" None fr
           response_without_values Ho eq_refl eq_refl eq_refl).
Defined.

(** C9. When the parse attempts end in success but the parsed object
    reports no values, the object the constructor returns still holds
    the parsed object while [saml_is_valid] answers false; and
    [get_saml] answers [None] only when the parse attempts ended in the
    encrypted-response or the is-a-request outcome. *)
Theorem parsed_object_kept_when_invalid {Certificate} (env : Env Certificate)
    source input_type filename :
  (forall fr obj,
     orchestrate env source input_type filename fresh_frame = (Return tt, fr) ->
     terminal_outcome fr = Success ->
     _saml (self fr) = Some (Some obj) ->
     SamlParser.found_any_values obj = false ->
     exists r evs,
       new_TextReader env source input_type filename = (Return r, evs)
       /\ get_saml r = Return (Some obj)
       /\ saml_is_valid r = Return false)
  /\ (forall r evs,
        new_TextReader env source input_type filename = (Return r, evs) ->
        get_saml r = Return None ->
        exists fr,
          orchestrate env source input_type filename fresh_frame = (Return tt, fr)
          /\ (terminal_outcome fr = EncryptedResponse
              \/ terminal_outcome fr = IsARequest)).
Proof.
  split.
  - intros fr obj Ho Hout Hsaml Hfound.
    destruct (success_without_values_run env _ _ _ _ _ Ho Hout Hsaml Hfound) as [t ->].
    by eexists _, _.
  - intros r evs Hnew Hnone.
    destruct (new_TextReader_resolved env _ _ _ _ _ Hnew) as (fr & Ho & _ & Hres).
    exists fr. split; [exact Ho|]. unfold terminal_outcome.
    inversion Hres as [t s Henc Hself|t s Henc Hreq Hself|t obj Henc Hreq Hself Hfound
                      |t obj cert Henc Hreq Hself Hfound Htruthy Hcert
                      |t obj Henc Hreq Hself Hfound Htruthy]; subst;
      rewrite ?Henc, ?Hreq; auto; discriminate Hnone.
Qed.

Lemma parsed_object_kept_when_invalid_witness :
  let env := piped_env (Raise SamlParsingError)
                       (Return response_without_values) Return in
  let fr := mkFrame
              (mkTextReader (Some []) (Some true) (Some "regex")
                 (Some (Some response_without_values)) None None)
              false false
              [EvStdin; EvFromXml Standard piped_data; EvFromXml Regex piped_data] in
  orchestrate env "stdin" "xml" None fresh_frame = (Return tt, fr)
  /\ terminal_outcome fr = Success
  /\ exists r evs,
       new_TextReader env "stdin" "xml" None = (Return r, evs)
       /\ get_saml r = Return (Some response_without_values)
       /\ saml_is_valid r = Return false.
Proof.
  intros env fr.
  assert (Ho : orchestrate env "stdin" "xml" None fresh_frame = (Return tt, fr))
    by (vm_compute; reflexivity).
  split; [exact Ho|]. split; [reflexivity|].
  exact (proj1 (parsed_object_kept_when_invalid env "stdin" "xml" None) fr
           response_without_values Ho eq_refl eq_refl eq_refl).
Defined.

(** ** The encrypted-response and is-a-request outcomes *)

Lemma terminal_outcome_run {Certificate} (env : Env Certificate)
    source input_type filename fr :
  orchestrate env source input_type filename fresh_frame = (Return tt, fr) ->
  terminal_outcome fr <> Success ->
  exists t s,
    self fr = mkTextReader (Some []) (Some false) (Some t) (Some s) None None
    /\ new_TextReader env source input_type filename
       = (Return
            (mkTextReader (Some (fallback_messages t ++ advisory (terminal_outcome fr)))
               (Some false) (Some t) (Some s) None None),
          log fr).
Proof.
  intros Ho Hout.
  destruct (parsed_shape fr (orchestrate_parsed _ _ _ _ _ Ho)) as (t & s & Hself & _).
  exists t, s. rewrite new_TextReader_phases, Ho.
  unfold terminal_outcome in *.
  destruct (is_encrypted fr) eqn:Henc.
  - split; [exact Hself|].
    erewrite resolve_encrypted by (done || by rewrite Hself).
    by rewrite Hself.
  - destruct (is_a_response fr) eqn:Hreq; [|done].
    split; [exact Hself|].
    erewrite resolve_request by (done || by rewrite Hself).
    by rewrite Hself.
Qed.

(** C1 (what the code does). When the parse attempts end in the
    encrypted-response or the is-a-request outcome, the constructor
    appends the matching advisory, leaves [saml_is_valid] false and
    makes no further call (no values check, no certificate extraction);
    but it returns before [_valid_cert] is assigned, so [cert_is_valid]
    raises [AttributeError] instead of answering false. *)
Theorem terminal_outcome_leaves_cert_flag_unassigned {Certificate}
    (env : Env Certificate) source input_type filename fr :
  orchestrate env source input_type filename fresh_frame = (Return tt, fr) ->
  terminal_outcome fr = EncryptedResponse \/ terminal_outcome fr = IsARequest ->
  exists r errs,
    new_TextReader env source input_type filename = (Return r, log fr)
    /\ get_errors r = Return (errs ++ advisory (terminal_outcome fr))
    /\ saml_is_valid r = Return false
    /\ Forall (fun ev => is_resolver_event ev = false) (log fr)
    /\ cert_is_valid r = Raise no_valid_cert_attribute.
Proof.
  intros Ho Hout.
  destruct (terminal_outcome_run env _ _ _ _ Ho) as (t & s & _ & ->).
  { destruct Hout as [-> | ->]; discriminate. }
  eexists _, _. split; [reflexivity|]. split; [reflexivity|].
  split; [reflexivity|]. split; [|reflexivity].
  apply (parsed_log _ (orchestrate_parsed _ _ _ _ _ Ho)).
Qed.

Lemma terminal_outcome_leaves_cert_flag_unassigned_witness :
  let env := piped_env (Raise (SamlResponseEncryptedError "strict"))
                       (Return response_with_certificate) Return in
  let fr := mkFrame
              (mkTextReader (Some []) (Some false) (Some "strict") (Some None) None None)
              true false [EvStdin; EvFromXml Standard piped_data] in
  let r := mkTextReader (Some [encrypted_advisory]) (Some false) (Some "strict")
             (Some None) None None in
  orchestrate env "stdin" "xml" None fresh_frame = (Return tt, fr)
  /\ terminal_outcome fr = EncryptedResponse
  /\ new_TextReader env "stdin" "xml" None = (Return r, log fr)
  /\ get_errors r = Return [encrypted_advisory]
  /\ saml_is_valid r = Return false
  /\ cert_is_valid r = Raise no_valid_cert_attribute.
Proof.
  intros env fr r.
  assert (Ho : orchestrate env "stdin" "xml" None fresh_frame = (Return tt, fr))
    by (vm_compute; reflexivity).
  destruct (terminal_outcome_leaves_cert_flag_unassigned env "stdin" "xml" None fr Ho
              (or_introl eq_refl)) as (r' & errs & Hnew & _ & _ & _ & Hcert).
  assert (Hr : new_TextReader env "stdin" "xml" None = (Return r, log fr))
    by (vm_compute; reflexivity).
  assert (r' = r) as -> by congruence.
  repeat (split; [done|]). exact Hcert.
Defined.

(** C10 (what the code does). When the standard parser fails with a
    generic parse failure and the regex parser then reports the
    encrypted-response or the is-a-request condition, the error list is
    the fallback warning naming ['regex'] followed by the matching
    advisory and [saml_is_valid] answers false; [_valid_cert] is never
    assigned, so [cert_is_valid] raises instead of answering false. *)
Theorem fallback_then_terminal_condition {Certificate} (env : Env Certificate)
    source input_type filename data e o label :
  lower input_type ∈ VALID_INPUT_TYPES ->
  acquired env source filename = Return data ->
  attempt env (lower input_type) data Standard = Raise SamlParsingError ->
  attempt env (lower input_type) data Regex = Raise e ->
  terminal_condition e = Some (o, label) ->
  exists r evs,
    new_TextReader env source input_type filename = (Return r, evs)
    /\ get_errors r = Return (fallback_warning "regex" :: advisory o)
    /\ saml_is_valid r = Return false
    /\ cert_is_valid r = Raise no_valid_cert_attribute.
Proof.
  intros Hty Hdata Hstd Hregex Hcond.
  pose proof (orchestrate_fallback env _ _ _ _ Hty Hdata Hstd) as Ho.
  cbn zeta in Ho. rewrite Hregex in Ho.
  destruct e; try discriminate Hcond; injection Hcond as <- <-.
  all: destruct (terminal_outcome_run env _ _ _ _ Ho) as (t & s & Hself & ->);
    [discriminate|].
  all: injection Hself as <- <-.
  all: eexists _, _; split; [reflexivity|].
  all: rewrite fallback_messages_other by discriminate.
  all: repeat split; reflexivity.
Qed.

Lemma fallback_then_terminal_condition_witness :
  let env := piped_env (Raise SamlParsingError)
                       (Raise (SamlResponseEncryptedError "regex")) Return in
  lower "xml" ∈ VALID_INPUT_TYPES
  /\ acquired env "stdin" None = Return piped_data
  /\ attempt env (lower "xml") piped_data Standard = Raise SamlParsingError
  /\ attempt env (lower "xml") piped_data Regex
     = Raise (SamlResponseEncryptedError "regex")
  /\ exists r evs,
       new_TextReader env "stdin" "xml" None = (Return r, evs)
       /\ get_errors r = Return [fallback_warning "regex"; encrypted_advisory]
       /\ saml_is_valid r = Return false
       /\ cert_is_valid r = Raise no_valid_cert_attribute.
Proof.
  intros env.
  assert (Hty : lower "xml" ∈ VALID_INPUT_TYPES).
  { apply elem_of_VALID_INPUT_TYPES. vm_compute. auto. }
  assert (Hdata : acquired env "stdin" None = Return piped_data)
    by (vm_compute; reflexivity).
  assert (Hstd : attempt env (lower "xml") piped_data Standard = Raise SamlParsingError)
    by (vm_compute; reflexivity).
  assert (Hregex : attempt env (lower "xml") piped_data Regex
                   = Raise (SamlResponseEncryptedError "regex"))
    by (vm_compute; reflexivity).
  repeat (split; [assumption|]).
  exact (fallback_then_terminal_condition env "stdin" "xml" None piped_data
           (SamlResponseEncryptedError "regex") EncryptedResponse "regex"
           Hty Hdata Hstd Hregex eq_refl).
Defined.

(** ** Terminal failures of the standard parser *)

(** C3 fails as worded: a standard parser whose encrypted-response
    failure carries the label ['regex'] sends the constructor into the
    regex attempt. *)
Lemma regex_called_when_label_is_regex :
  ~ terminal_failure_bypasses_regex
      (piped_env (Raise (SamlResponseEncryptedError "regex"))
                 (Return response_with_certificate) Return)
      "stdin" "xml" None.
Proof.
  intros Hclaim.
  specialize (Hclaim piped_data (SamlResponseEncryptedError "regex")
                EncryptedResponse "regex").
  assert (Hrun : (new_TextReader
                    (piped_env (Raise (SamlResponseEncryptedError "regex"))
                               (Return response_with_certificate) Return)
                    "stdin" "xml" None).2
                 = [EvStdin; EvFromXml Standard piped_data; EvFromXml Regex piped_data])
    by (vm_compute; reflexivity).
  rewrite Hrun in Hclaim.
  assert (Hno : no_regex_call
                  [EvStdin; EvFromXml Standard piped_data; EvFromXml Regex piped_data]).
  { apply Hclaim.
    - apply elem_of_VALID_INPUT_TYPES. vm_compute. auto.
    - vm_compute; reflexivity.
    - vm_compute; reflexivity.
    - reflexivity. }
  inversion Hno as [|? ? _ Hrest]; subst.
  inversion Hrest as [|? ? _ Hrest']; subst.
  inversion Hrest' as [|? ? Hregex _]; subst.
  discriminate Hregex.
Qed.

(** C3, amended. When the standard parser fails with the
    encrypted-response or the is-a-request condition and the label the
    failure carries is not ['regex'], the parse attempts end at once in
    that outcome, the constructor returns its object, and the regex
    parser is never called. *)
Theorem terminal_failure_skips_regex {Certificate} (env : Env Certificate)
    source input_type filename data e o label :
  lower input_type ∈ VALID_INPUT_TYPES ->
  acquired env source filename = Return data ->
  attempt env (lower input_type) data Standard = Raise e ->
  terminal_condition e = Some (o, label) ->
  label <> "regex" ->
  exists fr r,
    orchestrate env source input_type filename fresh_frame = (Return tt, fr)
    /\ terminal_outcome fr = o
    /\ _parser_used (self fr) = Some label
    /\ new_TextReader env source input_type filename = (Return r, log fr)
    /\ no_regex_call (new_TextReader env source input_type filename).2.
Proof.
  intros Hty Hdata Hstd Hcond Hlabel.
  assert (Hlog : no_regex_call
                   (acquire_log env source filename
                    ++ attempt_log env (lower input_type) data Standard)).
  { apply Forall_app_2; [apply acquire_log_no_regex | apply standard_log_no_regex]. }
  destruct e; try discriminate Hcond; injection Hcond as <- <-.
  - pose proof (orchestrate_standard_encrypted env _ _ _ _ _ Hty Hdata Hstd Hlabel) as Ho.
    destruct (terminal_outcome_run env _ _ _ _ Ho) as (t & s & _ & Hnew); [discriminate|].
    eexists _, _. split; [exact Ho|]. rewrite Hnew. by repeat split.
  - pose proof (orchestrate_standard_request env _ _ _ _ _ Hty Hdata Hstd Hlabel) as Ho.
    destruct (terminal_outcome_run env _ _ _ _ Ho) as (t & s & _ & Hnew); [discriminate|].
    eexists _, _. split; [exact Ho|]. rewrite Hnew. by repeat split.
Qed.

Lemma terminal_failure_skips_regex_witness :
  let env := piped_env (Raise (IsASamlRequest "strict"))
                       (Return response_with_certificate) Return in
  lower "har" ∈ VALID_INPUT_TYPES
  /\ acquired env "stdin" None = Return piped_data
  /\ attempt env (lower "har") piped_data Standard = Raise (IsASamlRequest "strict")
  /\ terminal_condition (IsASamlRequest "strict") = Some (IsARequest, "strict")
  /\ "strict" <> "regex"
  /\ exists fr r,
       orchestrate env "stdin" "har" None fresh_frame = (Return tt, fr)
       /\ terminal_outcome fr = IsARequest
       /\ _parser_used (self fr) = Some "strict"
       /\ new_TextReader env "stdin" "har" None = (Return r, log fr)
       /\ no_regex_call (new_TextReader env "stdin" "har" None).2.
Proof.
  intros env.
  assert (Hty : lower "har" ∈ VALID_INPUT_TYPES).
  { apply elem_of_VALID_INPUT_TYPES. vm_compute. auto. }
  assert (Hdata : acquired env "stdin" None = Return piped_data)
    by (vm_compute; reflexivity).
  assert (Hstd : attempt env (lower "har") piped_data Standard
                 = Raise (IsASamlRequest "strict"))
    by (vm_compute; reflexivity).
  assert (Hlabel : "strict" <> "regex") by discriminate.
  repeat (split; [assumption || reflexivity|]).
  exact (terminal_failure_skips_regex env "stdin" "har" None piped_data
           (IsASamlRequest "strict") IsARequest "strict"
           Hty Hdata Hstd eq_refl Hlabel).
Defined.

(** ** The certificate step *)

(** Where the code departs from what is required of the certificate
    step: when the certificate class rejects the blob, its exception
    leaves the constructor, and there is no object on which
    [cert_is_valid] could answer false. *)
Lemma certificate_failure_reaches_caller :
  ~ certificate_flag_reports_construction
      (piped_env (Return response_with_certificate) (Return response_with_certificate)
                 (fun _ => Raise (ValueError "Unable to load certificate")))
      "stdin" "xml" None.
Proof.
  intros Hclaim.
  set (env := piped_env (Return response_with_certificate)
                (Return response_with_certificate)
                (fun _ => Raise (ValueError "Unable to load certificate"))) in *.
  assert (Ho : orchestrate env "stdin" "xml" None fresh_frame
               = (Return tt,
                  mkFrame
                    (mkTextReader (Some []) (Some true) (Some "strict")
                       (Some (Some response_with_certificate)) None None)
                    false false
                    [EvStdin; EvFromXml Standard piped_data; EvUsedRelaxedParser]))
    by (vm_compute; reflexivity).
  destruct (Hclaim _ response_with_certificate Ho eq_refl eq_refl eq_refl)
    as (r & evs & Hnew & _).
  vm_compute in Hnew. discriminate Hnew.
Qed.

(** C5 (what the code does). When the parse attempts end in success and
    the parsed object reports values, the certificate is asked for.  If
    a blob is found and the certificate class builds a handle from it,
    the object returned holds the handle and [cert_is_valid] answers
    true; if no blob is found, the could-not-locate message ends the
    error list and [cert_is_valid] answers false.  But line 127 calls
    the certificate class outside any [try] statement: if it raises on
    the blob, the exception reaches the caller and no object is
    returned, where the docstrings of [cert_is_valid] and
    [get_certificate] promise [False] and [None] for a certificate that
    could not be parsed. *)
Theorem certificate_step_outcome {Certificate} (env : Env Certificate)
    source input_type filename fr obj :
  orchestrate env source input_type filename fresh_frame = (Return tt, fr) ->
  terminal_outcome fr = Success ->
  _saml (self fr) = Some (Some obj) ->
  SamlParser.found_any_values obj = true ->
  In EvGetCertificate (new_TextReader env source input_type filename).2
  /\ if truthy (SamlParser.get_certificate obj) then
       match Certificate_new env (default "" (SamlParser.get_certificate obj)) with
       | Return cert =>
           exists r evs,
             new_TextReader env source input_type filename = (Return r, evs)
             /\ saml_is_valid r = Return true
             /\ cert_is_valid r = Return true
             /\ get_certificate r = Return (Some cert)
       | Raise e =>
           exists evs,
             new_TextReader env source input_type filename = (Raise e, evs)
       end
     else
       exists r evs errs,
         new_TextReader env source input_type filename = (Return r, evs)
         /\ get_errors r = Return (errs ++ [no_certificate_message])
         /\ saml_is_valid r = Return true
         /\ cert_is_valid r = Return false.
Proof.
  intros Ho [Henc Hreq]%terminal_outcome_success Hsaml Hfound.
  destruct (parsed_shape fr (orchestrate_parsed _ _ _ _ _ Ho)) as (t & s & Hself & _).
  rewrite Henc, Hreq in Hself. rewrite Hself in Hsaml. injection Hsaml as ->.
  rewrite new_TextReader_phases, Ho.
  erewrite resolve_certificate by (done || exact Hself). cbn zeta.
  destruct (truthy (SamlParser.get_certificate obj)).
  - destruct (Certificate_new env _) as [cert|e]; cbn.
    + split; [apply in_or_app; right; cbn; auto|]. by eexists _, _.
    + split; [apply in_or_app; right; cbn; auto|]. by eexists.
  - cbn. split; [apply in_or_app; right; cbn; auto|]. by eexists _, _, _.
Qed.

Lemma certificate_step_outcome_witness :
  let env := piped_env (Return response_with_certificate)
                       (Return response_with_certificate)
                       (fun _ => Raise (ValueError "Unable to load certificate")) in
  let fr := mkFrame
              (mkTextReader (Some []) (Some true) (Some "strict")
                 (Some (Some response_with_certificate)) None None)
              false false
              [EvStdin; EvFromXml Standard piped_data; EvUsedRelaxedParser] in
  orchestrate env "stdin" "xml" None fresh_frame = (Return tt, fr)
  /\ terminal_outcome fr = Success
  /\ _saml (self fr) = Some (Some response_with_certificate)
  /\ SamlParser.found_any_values response_with_certificate = true
  /\ In EvGetCertificate (new_TextReader env "stdin" "xml" None).2
  /\ exists evs,
       new_TextReader env "stdin" "xml" None
       = (Raise (ValueError "Unable to load certificate"), evs).
Proof.
  intros env fr.
  assert (Ho : orchestrate env "stdin" "xml" None fresh_frame = (Return tt, fr))
    by (vm_compute; reflexivity).
  split; [exact Ho|]. repeat (split; [reflexivity|]).
  exact (certificate_step_outcome env "stdin" "xml" None fr response_with_certificate
           Ho eq_refl eq_refl eq_refl).
Defined.

(** ** What reaches the caller *)

Lemma orchestrate_raise_propagates {Certificate} (env : Env Certificate)
    source input_type filename e fr :
  orchestrate env source input_type filename fresh_frame = (Raise e, fr) ->
  __init__ env source input_type filename fresh_frame = (Raise e, fr)
  /\ new_TextReader env source input_type filename = (Raise e, log fr).
Proof.
  intros Ho. unfold new_TextReader, __init__, mbind, M_bind. by rewrite Ho.
Qed.



(** The resolver raises only what the certificate class raised, after
    the call is logged. *)
Lemma resolve_raise_certificate {Certificate} (env : Env Certificate)
    (fr fr' : @Frame Certificate) e :
  parsed fr ->
  resolve env fr = (Raise e, fr') ->
  exists blob, In (EvCertificate blob) (log fr') /\ Certificate_new env blob = Raise e.
Proof.
  intros Hp. destruct (parsed_shape fr Hp) as (t & s & Hself & Hs).
  destruct (is_encrypted fr) eqn:Henc.
  { by erewrite resolve_encrypted by (done || by rewrite Hself). }
  destruct (is_a_response fr) eqn:Hreq.
  { by erewrite resolve_request by (done || by rewrite Hself). }
  destruct Hs as [obj ->]; [done..|]. cbn in Hself.
  destruct (SamlParser.found_any_values obj) eqn:Hfound.
  - erewrite resolve_certificate by done. cbn zeta.
    destruct (truthy (SamlParser.get_certificate obj)); [|done].
    destruct (Certificate_new env _) as [|e'] eqn:Hcert; [done|].
    intros [= <- <-]. eexists. split; [|exact Hcert].
    cbn. apply in_or_app. right. cbn. auto.
  - by erewrite resolve_no_values by done.
Qed.





(** ** The declared input type *)

Lemma standard_attempt_reached {Certificate} (env : Env Certificate)
    source input_type filename data :
  lower input_type ∈ VALID_INPUT_TYPES ->
  acquired env source filename = Return data ->
  exists evs,
    (new_TextReader env source input_type filename).2
    = acquire_log env source filename
      ++ attempt_log env (lower input_type) data Standard ++ evs.
Proof.
  intros Hty Hdata.
  unfold new_TextReader, __init__, orchestrate, check_input_type, standard_attempt,
    regex_attempt, resolve, warn_fallback, classify, certificate_step.
  walk.
  all: cbn [snd log]; rewrite <- ?app_assoc; try (eexists; reflexivity).
  all: exists []; by rewrite ?app_nil_r.
Qed.

Lemma acquire_log_nil {Certificate} (env : Env Certificate) source filename :
  acquire_log env source filename = [] ->
  acquired env source filename = Raise (ValueError ("Invalid source: " +:+ source)).
Proof.
  unfold acquire_log, acquired, read_source, _read_clipboard, _read_stdin, _read_file.
  repeat case_decide; exec; cbn; try discriminate.
  - by destruct (stdin_readlines env).
  - by destruct (open_read env filename) as [|[]].
  - done.
Qed.

Lemma acquisition_failure_run {Certificate} (env : Env Certificate)
    source input_type filename e :
  lower input_type ∈ VALID_INPUT_TYPES ->
  acquired env source filename = Raise e ->
  new_TextReader env source input_type filename
  = (Raise e, acquire_log env source filename).
Proof.
  intros Hty Hdata.
  unfold new_TextReader, __init__, orchestrate, check_input_type.
  walk; reflexivity.
Qed.

(** Where an exception of the parse attempts comes from. *)
Lemma orchestrate_raise_inv {Certificate} (env : Env Certificate)
    source input_type filename e fr :
  lower input_type ∈ VALID_INPUT_TYPES ->
  orchestrate env source input_type filename fresh_frame = (Raise e, fr) ->
  acquired env source filename = Raise e
  \/ exists data parser,
       acquired env source filename = Return data
       /\ attempt env (lower input_type) data parser = Raise e.
Proof.
  intros Hty.
  unfold orchestrate, check_input_type, standard_attempt, regex_attempt.
  walk.
  all: intros [= <- <-].
  all: first [ by left | right; eexists _, _; split; [reflexivity | eassumption] ].
Qed.

Lemma acquired_raise_origin {Certificate} (env : Env Certificate) source filename e :
  source = "clip" \/ source = "stdin" \/ source = "file" ->
  acquired env source filename = Raise e ->
  paste env = Raise e
  \/ stdin_readlines env = Raise e
  \/ open_read env filename = Raise e
  \/ e = FileNotFoundError ("Cannot find file specified: " +:+ format_filename filename).
Proof.
  intros Hsource.
  unfold acquired, read_source, _read_clipboard, _read_stdin, _read_file.
  repeat case_decide; exec; cbn.
  - auto.
  - destruct (stdin_readlines env) as [|e0]; cbn; [discriminate | intros [= <-]; auto].
  - destruct (open_read env filename) as [|e0]; cbn; [discriminate|].
    destruct e0; cbn; intros [= <-]; auto 7.
  - tauto.
Qed.

Lemma attempt_raise_origin {Certificate} (env : Env Certificate)
    input_type data parser e :
  input_type ∈ VALID_INPUT_TYPES ->
  attempt env input_type data parser = Raise e ->
  (exists d, HarParser_parse env d = Raise e)
  \/ (exists p d,
        from_base64 (parser_class env p) d = Raise e
        \/ from_xml (parser_class env p) d = Raise e).
Proof.
  rewrite elem_of_VALID_INPUT_TYPES.
  unfold attempt, _parse_raw_data.
  repeat case_decide; exec; cbn.
  - intros _ Hraise. right. eauto.
  - intros _ Hraise. right. eauto.
  - intros _. destruct (HarParser_parse env data) as [decoded|e'] eqn:Hhar; cbn.
    + intros Hraise. right. eauto.
    + intros [= <-]. left. eauto.
  - tauto.
Qed.

(** With a valid input type and a valid source, whatever reaches the
    caller was raised by a collaborator, but for the [FileNotFoundError]
    that [_read_file] raises in place of the one of [open]. *)
Lemma raise_origin {Certificate} (env : Env Certificate)
    source input_type filename e evs :
  lower input_type ∈ VALID_INPUT_TYPES ->
  source = "clip" \/ source = "stdin" \/ source = "file" ->
  new_TextReader env source input_type filename = (Raise e, evs) ->
  raised_by_collaborator env filename e
  \/ e = FileNotFoundError ("Cannot find file specified: " +:+ format_filename filename).
Proof.
  intros Hty Hsource. rewrite new_TextReader_phases. unfold raised_by_collaborator.
  destruct (orchestrate env source input_type filename fresh_frame)
    as [[[]|e'] fr] eqn:Ho.
  - pose proof (orchestrate_parsed _ _ _ _ _ Ho) as Hp.
    destruct (resolve env fr) as [[[]|e''] fr'] eqn:Hr; intros [= <- <-].
    destruct (resolve_raise_certificate env _ _ _ Hp Hr) as (blob & _ & Hcert).
    left. do 5 right. eauto.
  - intros [= <- <-].
    destruct (orchestrate_raise_inv env _ _ _ _ _ Hty Ho)
      as [Hacq|(data & parser & _ & Hatt)].
    + destruct (acquired_raise_origin env _ _ _ Hsource Hacq) as [?|[?|[?|?]]]; auto.
    + destruct (attempt_raise_origin env _ _ _ _ Hty Hatt) as [?|?]; auto 7.
Qed.

(** C8 fails as worded: with the input type ['XML'], which lowercases
    into the set, a source that is none of ['clip'], ['stdin'],
    ['file'] still makes the constructor raise [ValueError]. *)
Lemma valid_type_with_invalid_source_raises :
  ~ valid_type_raises_no_ValueError
      (piped_env (Return response_with_certificate) (Return response_with_certificate)
                 Return)
      "scanner" "XML" None.
Proof.
  intros [Hnone _].
  apply (Hnone ltac:(apply elem_of_VALID_INPUT_TYPES; vm_compute; auto)
           "Invalid source: scanner" []).
  vm_compute. reflexivity.
Qed.

(** C8, amended. The declared input type is compared after lowercasing.
    If the lowercased string is one of ['base64'], ['xml'], ['har'],
    the check of lines 47-49 raises nothing and hands on the lowercased
    string; with a source that is one of ['clip'], ['stdin'], ['file']
    the constructor then raises no [ValueError] of its own, so that one
    reaches the caller only if a collaborator raised it; and once the
    raw data is acquired the standard parser is attempted with the
    lowercased type.  Any other string makes the constructor raise
    [ValueError] before it calls anything. *)
Theorem input_type_matched_case_insensitively {Certificate} (env : Env Certificate)
    source input_type filename :
  (lower input_type ∈ VALID_INPUT_TYPES ->
   (forall fr : @Frame Certificate,
      check_input_type input_type fr = (Return (lower input_type), fr))
   /\ (source = "clip" \/ source = "stdin" \/ source = "file" ->
       forall msg evs,
         new_TextReader env source input_type filename = (Raise (ValueError msg), evs) ->
         raised_by_collaborator env filename (ValueError msg))
   /\ (forall data,
         acquired env source filename = Return data ->
         exists evs,
           (new_TextReader env source input_type filename).2
           = acquire_log env source filename
             ++ attempt_log env (lower input_type) data Standard ++ evs))
  /\ (lower input_type ∉ VALID_INPUT_TYPES ->
      new_TextReader env source input_type filename
      = (Raise (ValueError ("Invalid input type: " +:+ lower input_type)), [])).
Proof.
  split.
  - intros Hty. split; [|split].
    + intros fr. unfold check_input_type. by case_decide.
    + intros Hsource msg evs Hnew.
      by destruct (raise_origin env _ _ _ _ _ Hty Hsource Hnew) as [?|?].
    + intros data Hdata. by apply standard_attempt_reached.
  - intros Hty.
    destruct (orchestrate_raises_early env source input_type filename
                (ValueError "") (or_introl Hty))
      as (e & fr & Ho & _ & _ & Hvalue & _).
    destruct (Hvalue Hty) as [-> Hlog].
    destruct (orchestrate_raise_propagates env _ _ _ _ _ Ho) as [_ ->].
    by rewrite Hlog.
Qed.

Lemma input_type_matched_case_insensitively_witness :
  let env := piped_env (Return response_with_certificate)
                       (Return response_with_certificate)
                       (fun _ => Raise (ValueError "Unable to load certificate")) in
  lower "XML" = "xml"
  /\ lower "Base64" = "base64"
  /\ lower "Base64" ∈ VALID_INPUT_TYPES
  /\ ("stdin" = "clip" \/ "stdin" = "stdin" \/ "stdin" = "file")
  /\ (exists evs,
        new_TextReader env "stdin" "Base64" None
        = (Raise (ValueError "Unable to load certificate"), evs))
  /\ raised_by_collaborator env None (ValueError "Unable to load certificate")
  /\ acquired env "stdin" None = Return piped_data
  /\ (exists evs,
        (new_TextReader env "stdin" "Base64" None).2
        = acquire_log env "stdin" None
          ++ attempt_log env (lower "Base64") piped_data Standard ++ evs)
  /\ (lower "YAML" ∉ VALID_INPUT_TYPES)
  /\ new_TextReader env "stdin" "YAML" None
     = (Raise (ValueError ("Invalid input type: " +:+ lower "YAML")), []).
Proof.
  intros env.
  assert (Hty : lower "Base64" ∈ VALID_INPUT_TYPES).
  { apply elem_of_VALID_INPUT_TYPES. vm_compute. auto. }
  assert (Hno : lower "YAML" ∉ VALID_INPUT_TYPES).
  { rewrite elem_of_VALID_INPUT_TYPES. vm_compute. intros [H|[H|H]]; discriminate H. }
  assert (Hdata : acquired env "stdin" None = Return piped_data)
    by (vm_compute; reflexivity).
  assert (Hsource : "stdin" = "clip" \/ "stdin" = "stdin" \/ "stdin" = "file")
    by (right; left; reflexivity).
  assert (Hnew : new_TextReader env "stdin" "Base64" None
                 = (Raise (ValueError "Unable to load certificate"),
                    [EvStdin; EvFromBase64 Standard piped_data; EvUsedRelaxedParser;
                     EvFoundAnyValues; EvGetCertificate; EvCertificate "MIIC"]))
    by (vm_compute; reflexivity).
  split; [reflexivity|]. split; [reflexivity|].
  split; [exact Hty|]. split; [exact Hsource|].
  split; [by eexists|]. split.
  - exact (proj1 (proj2 (proj1 (input_type_matched_case_insensitively
                                  env "stdin" "Base64" None) Hty))
             Hsource _ _ Hnew).
  - split; [exact Hdata|]. split.
    + exact (proj2 (proj2 (proj1 (input_type_matched_case_insensitively
                                    env "stdin" "Base64" None) Hty))
               piped_data Hdata).
    + split; [exact Hno|].
      exact (proj2 (input_type_matched_case_insensitively env "stdin" "YAML" None) Hno).
Defined.

(** * Further properties of the constructor *)

(** ** Lowercasing *)

Lemma lower_char_idempotent c : lower_char (lower_char c) = lower_char c.
Proof. destruct c as [[] [] [] [] [] [] [] []]; reflexivity. Qed.

Lemma lower_idempotent s : lower (lower s) = lower s.
Proof.
  induction s as [|c s IH]; cbn; [reflexivity|].
  by rewrite lower_char_idempotent, IH.
Qed.

(** X1. The constructor sees the declared input type only through its
    lowercasing: an input type, a string of code points below 256, and
    its lowercased form give the same result and the same calls,
    whatever the source and the world. *)
Theorem input_type_used_lowercased {Certificate} (env : Env Certificate)
    source input_type filename :
  new_TextReader env source input_type filename
  = new_TextReader env source (lower input_type) filename.
Proof.
  unfold new_TextReader, __init__, orchestrate, check_input_type.
  by rewrite lower_idempotent.
Qed.

(** ** Reading the file *)

(** X2. With a valid input type and the source ['file'], an exception
    of [open] ends the constructor after that single call: a
    [FileNotFoundError] reaches the caller with its message replaced by
    the one naming the file, every other exception reaches it
    unchanged. *)
Theorem file_errors_reach_caller {Certificate} (env : Env Certificate)
    input_type filename e :
  lower input_type ∈ VALID_INPUT_TYPES ->
  open_read env filename = Raise e ->
  new_TextReader env "file" input_type filename
  = (Raise match e with
           | FileNotFoundError _ =>
               FileNotFoundError
                 ("Cannot find file specified: " +:+ format_filename filename)
           | _ => e
           end,
     [EvOpen filename]).
Proof.
  intros Hty Hopen.
  assert (Hacq : acquired env "file" filename
                 = Raise match e with
                         | FileNotFoundError _ =>
                             FileNotFoundError
                               ("Cannot find file specified: "
                                +:+ format_filename filename)
                         | _ => e
                         end
                 /\ acquire_log env "file" filename = [EvOpen filename]).
  { unfold acquired, acquire_log, read_source, _read_file.
    repeat case_decide; try done. exec. rewrite Hopen. by destruct e. }
  destruct Hacq as [Hacq Hlog].
  rewrite (acquisition_failure_run env _ _ _ _ Hty Hacq). by rewrite Hlog.
Qed.

Lemma file_errors_reach_caller_witness :
  let env := mkEnv string (Return "") (Return [])
               (fun _ => Raise (OtherError "PermissionError"))
               (constant_parser (Return response_with_certificate))
               (constant_parser (Return response_with_certificate))
               Return Return in
  lower "XML" ∈ VALID_INPUT_TYPES
  /\ open_read env (Some "response.xml") = Raise (OtherError "PermissionError")
  /\ new_TextReader env "file" "XML" (Some "response.xml")
     = (Raise (OtherError "PermissionError"), [EvOpen (Some "response.xml")]).
Proof.
  intros env.
  assert (Hty : lower "XML" ∈ VALID_INPUT_TYPES).
  { apply elem_of_VALID_INPUT_TYPES. vm_compute. auto. }
  split; [exact Hty|]. split; [reflexivity|].
  exact (file_errors_reach_caller env "XML" (Some "response.xml")
           (OtherError "PermissionError") Hty eq_refl).
Defined.

(** ** The dispatch on the input type *)

(** X3. [_parse_raw_data] and [VALID_INPUT_TYPES] agree: for a type in
    the set a collaborator is always called, and for a type outside it
    nothing is called and the function raises its own [ValueError].  As
    the constructor only hands on types it has checked, that error never
    arises from within it. *)
Theorem dispatch_agrees_with_valid_types {Certificate} (env : Env Certificate)
    input_type data parser :
  (input_type ∈ VALID_INPUT_TYPES <-> attempt_log env input_type data parser <> [])
  /\ (input_type ∉ VALID_INPUT_TYPES ->
      attempt env input_type data parser
      = Raise (ValueError ("Invalid data type specified: " +:+ input_type))).
Proof.
  rewrite elem_of_VALID_INPUT_TYPES.
  unfold attempt, attempt_log, _parse_raw_data.
  repeat case_decide; exec; cbn.
  - split; [|tauto]. split; [discriminate | auto].
  - split; [|tauto]. split; [discriminate | auto].
  - split; [|tauto]. split; [|auto]. intros _.
    destruct (HarParser_parse env data); discriminate.
  - split; [|done]. split; [tauto | done].
Qed.

Lemma dispatch_agrees_with_valid_types_witness :
  let env := piped_env (Return response_with_certificate)
                       (Return response_with_certificate) Return in
  "har" ∈ VALID_INPUT_TYPES
  /\ attempt_log env "har" piped_data Regex
     = [EvHarParse piped_data; EvFromBase64 Regex piped_data]
  /\ ("json" ∉ VALID_INPUT_TYPES)
  /\ attempt env "json" piped_data Regex
     = Raise (ValueError ("Invalid data type specified: " +:+ "json")).
Proof.
  intros env.
  assert (Hno : "json" ∉ VALID_INPUT_TYPES).
  { rewrite elem_of_VALID_INPUT_TYPES. intros [H|[H|H]]; discriminate H. }
  split; [apply elem_of_VALID_INPUT_TYPES; auto|].
  split; [vm_compute; reflexivity|]. split; [exact Hno|].
  exact (proj2 (dispatch_agrees_with_valid_types env "json" piped_data Regex) Hno).
Defined.

(** ** The calls of a run *)

Lemma truthy_blob (v : option string) :
  truthy v = true -> v = Some (default "" v) /\ default "" v <> "".
Proof. destruct v as [[|c s]|]; cbn; try discriminate. done. Qed.

Lemma acquire_log_source_call {Certificate} (env : Env Certificate) source filename :
  acquire_log env source filename = source_call source filename.
Proof.
  unfold acquire_log, source_call, read_source, _read_clipboard, _read_stdin, _read_file.
  repeat case_decide; exec; cbn; try done.
  - by destruct (stdin_readlines env).
  - by destruct (open_read env filename) as [|[]].
Qed.

Lemma attempt_log_no_acquire {Certificate} (env : Env Certificate)
    input_type data parser :
  Forall (fun ev => is_acquire_event ev = false)
         (attempt_log env input_type data parser).
Proof.
  unfold attempt_log, _parse_raw_data.
  repeat case_decide; exec; cbn; try by repeat constructor.
  destruct (HarParser_parse env data); by repeat constructor.
Qed.

Lemma resolver_calls_no_acquire post :
  resolver_calls post -> Forall (fun ev => is_acquire_event ev = false) post.
Proof.
  intros [->|[->|[->|(blob & _ & ->)]]]; by repeat constructor.
Qed.

(** Whatever they end in, the parse attempts add to the acquisition
    call only calls of the parsers and of the parsed object. *)
Lemma orchestrate_log {Certificate} (env : Env Certificate)
    source input_type filename res fr :
  orchestrate env source input_type filename fresh_frame = (res, fr) ->
  Forall (fun ev => is_resolver_event ev = false) (log fr)
  /\ (((lower input_type ∉ VALID_INPUT_TYPES) /\ log fr = [])
      \/ (lower input_type ∈ VALID_INPUT_TYPES
          /\ exists rest,
               log fr = acquire_log env source filename ++ rest
               /\ Forall (fun ev => is_acquire_event ev = false) rest)).
Proof.
  unfold orchestrate, check_input_type, standard_attempt, regex_attempt.
  walk.
  all: intros [= <- <-]; cbn [log].
  all: split;
    [ repeat apply Forall_app_2;
      auto using acquire_log_no_resolver, attempt_log_no_resolver;
      by repeat constructor |].
  all: try (left; by split).
  all: right; split; [done|]; rewrite <- ?app_assoc.
  all: first
    [ eexists; split; [reflexivity|];
      repeat apply Forall_app_2; auto using attempt_log_no_acquire;
      by repeat constructor
    | exists []; split; [by rewrite app_nil_r | constructor] ].
Qed.

(** What the resolver adds to the calls, whether it returns or raises. *)
Lemma resolve_log {Certificate} (env : Env Certificate) (fr fr' : @Frame Certificate) res :
  parsed fr ->
  resolve env fr = (res, fr') ->
  exists post, log fr' = log fr ++ post /\ resolver_calls post.
Proof.
  intros Hp. destruct (parsed_shape fr Hp) as (t & s & Hself & Hs).
  unfold resolver_calls.
  destruct (is_encrypted fr) eqn:Henc.
  { erewrite resolve_encrypted by (done || by rewrite Hself).
    intros [= <- <-]. exists []. cbn. rewrite app_nil_r. auto. }
  destruct (is_a_response fr) eqn:Hreq.
  { erewrite resolve_request by (done || by rewrite Hself).
    intros [= <- <-]. exists []. cbn. rewrite app_nil_r. auto. }
  destruct Hs as [obj ->]; [done..|]. cbn in Hself.
  destruct (SamlParser.found_any_values obj) eqn:Hfound.
  - erewrite resolve_certificate by done. cbn zeta.
    destruct (truthy (SamlParser.get_certificate obj)) eqn:Htruthy.
    + apply truthy_blob in Htruthy as [_ Hblob].
      destruct (Certificate_new env _); intros [= <- <-]; cbn;
        eexists; (split; [reflexivity|]); right; right; right; by eexists.
    + intros [= <- <-]. cbn. eexists. split; [reflexivity|]. auto.
  - erewrite resolve_no_values by done.
    intros [= <- <-]. cbn. eexists. split; [reflexivity|]. auto.
Qed.

Lemma run_log {Certificate} (env : Env Certificate) source input_type filename :
  exists res fr post,
    orchestrate env source input_type filename fresh_frame = (res, fr)
    /\ (new_TextReader env source input_type filename).2 = log fr ++ post
    /\ resolver_calls post.
Proof.
  rewrite new_TextReader_phases.
  destruct (orchestrate env source input_type filename fresh_frame)
    as [[[]|e] fr] eqn:Ho.
  - pose proof (orchestrate_parsed _ _ _ _ _ Ho) as Hp.
    destruct (resolve env fr) as [res' fr'] eqn:Hr.
    destruct (resolve_log env _ _ _ Hp Hr) as (post & Hlog & Hpost).
    exists (Return tt), fr, post. split; [done|]. split; [|done].
    by destruct res'.
  - exists (Raise e), fr, []. split; [done|]. cbn. rewrite app_nil_r.
    split; [done|]. by left.
Qed.

(** X4. A run with a valid input type starts with the one call that
    fetches the raw data for its source (the clipboard for ['clip'],
    standard input for ['stdin'], the file for ['file']) and never
    fetches again; and unless the source is ['file'], the [filename]
    argument has no effect on the result. *)
Theorem source_read_once {Certificate} (env : Env Certificate)
    source input_type filename :
  lower input_type ∈ VALID_INPUT_TYPES ->
  (exists rest,
     (new_TextReader env source input_type filename).2
     = source_call source filename ++ rest
     /\ Forall (fun ev => is_acquire_event ev = false) rest)
  /\ (source <> "file" ->
      forall filename',
        new_TextReader env source input_type filename'
        = new_TextReader env source input_type filename).
Proof.
  intros Hty. split.
  - destruct (run_log env source input_type filename)
      as (res & fr & post & Ho & -> & Hpost).
    destruct (orchestrate_log env _ _ _ _ _ Ho) as [_ [[Hno _]|[_ Hlog]]]; [done|].
    destruct Hlog as (rest & -> & Hrest).
    exists (rest ++ post). rewrite acquire_log_source_call, app_assoc.
    split; [done|]. apply Forall_app_2; [done|]. by apply resolver_calls_no_acquire.
  - intros Hsource filename'.
    unfold new_TextReader, __init__, orchestrate, read_source.
    by repeat case_decide.
Qed.

Lemma source_read_once_witness :
  let env := piped_env (Return response_with_certificate)
                       (Return response_with_certificate) Return in
  lower "xml" ∈ VALID_INPUT_TYPES
  /\ "stdin" <> "file"
  /\ (exists rest,
        (new_TextReader env "stdin" "xml" None).2 = source_call "stdin" None ++ rest
        /\ Forall (fun ev => is_acquire_event ev = false) rest)
  /\ new_TextReader env "stdin" "xml" (Some "response.xml")
     = new_TextReader env "stdin" "xml" None.
Proof.
  intros env.
  assert (Hty : lower "xml" ∈ VALID_INPUT_TYPES).
  { apply elem_of_VALID_INPUT_TYPES. vm_compute. auto. }
  assert (Hsource : "stdin" <> "file") by discriminate.
  split; [exact Hty|]. split; [exact Hsource|]. split.
  - exact (proj1 (source_read_once env "stdin" "xml" None Hty)).
  - exact (proj2 (source_read_once env "stdin" "xml" None Hty) Hsource
             (Some "response.xml")).
Defined.

(** X5. In every run, returning or raising, the certificate class is
    called at most once, as the last call, right after the values check
    and the request for the certificate, and only on a blob that is not
    empty. *)
Theorem certificate_built_from_blob {Certificate} (env : Env Certificate)
    source input_type filename blob :
  In (EvCertificate blob) (new_TextReader env source input_type filename).2 ->
  blob <> ""
  /\ exists pre,
       (new_TextReader env source input_type filename).2
       = pre ++ [EvFoundAnyValues; EvGetCertificate; EvCertificate blob]
       /\ Forall (fun ev => is_resolver_event ev = false) pre.
Proof.
  destruct (run_log env source input_type filename)
    as (res & fr & post & Ho & -> & Hpost).
  destruct (orchestrate_log env _ _ _ _ _ Ho) as [Hpre _].
  intros [Hin|Hin]%in_app_or.
  - rewrite Forall_forall in Hpre. apply list_elem_of_In, Hpre in Hin.
    discriminate Hin.
  - destruct Hpost as [->|[->|[->|(blob' & Hblob & ->)]]]; cbn in Hin.
    + done.
    + destruct Hin as [Hin|[]]; discriminate Hin.
    + destruct Hin as [Hin|[Hin|[]]]; discriminate Hin.
    + destruct Hin as [Hin|[Hin|[Hin|[]]]]; try discriminate Hin.
      injection Hin as <-. split; [done|]. by exists (log fr).
Qed.

Lemma certificate_built_from_blob_witness :
  let env := piped_env (Return response_with_certificate)
                       (Return response_with_certificate)
                       (fun _ => Raise (ValueError "Unable to load certificate")) in
  In (EvCertificate "MIIC") (new_TextReader env "stdin" "xml" None).2
  /\ "MIIC" <> ""
  /\ exists pre,
       (new_TextReader env "stdin" "xml" None).2
       = pre ++ [EvFoundAnyValues; EvGetCertificate; EvCertificate "MIIC"]
       /\ Forall (fun ev => is_resolver_event ev = false) pre.
Proof.
  intros env.
  assert (Hin : In (EvCertificate "MIIC") (new_TextReader env "stdin" "xml" None).2).
  { vm_compute. auto 10. }
  split; [exact Hin|].
  exact (certificate_built_from_blob env "stdin" "xml" None "MIIC" Hin).
Defined.

(** ** What the object tells *)

Lemma fallback_messages_nil t : fallback_messages t = [] <-> t = "strict".
Proof.
  unfold fallback_messages. case_decide as Ht; split; try done.
Qed.

Lemma fallback_messages_length t : length (fallback_messages t) <= 1.
Proof. unfold fallback_messages. case_decide; cbn; lia. Qed.

(** X6. On every object the constructor returns, [saml_is_valid]
    answering true means that [get_saml] holds a parsed object and that
    this object found values. *)
Theorem valid_saml_has_values {Certificate} (env : Env Certificate)
    source input_type filename r evs :
  new_TextReader env source input_type filename = (Return r, evs) ->
  saml_is_valid r = Return true ->
  exists obj,
    get_saml r = Return (Some obj) /\ SamlParser.found_any_values obj = true.
Proof.
  intros Hnew Hvalid.
  destruct (new_TextReader_resolved env _ _ _ _ _ Hnew) as (fr & _ & _ & Hres).
  inversion Hres; subst; try discriminate Hvalid; by eexists.
Qed.

Lemma valid_saml_has_values_witness :
  let env := piped_env (Raise SamlParsingError)
                       (Return response_with_certificate) Return in
  let r := mkTextReader (Some [fallback_warning "regex"]) (Some true) (Some "regex")
             (Some (Some response_with_certificate)) (Some true) (Some (Some "MIIC")) in
  let evs := [EvStdin; EvFromXml Standard piped_data; EvFromXml Regex piped_data;
              EvFoundAnyValues; EvGetCertificate; EvCertificate "MIIC"] in
  new_TextReader env "stdin" "xml" None = (Return r, evs)
  /\ saml_is_valid r = Return true
  /\ exists obj,
       get_saml r = Return (Some obj) /\ SamlParser.found_any_values obj = true.
Proof.
  intros env r evs.
  assert (Hnew : new_TextReader env "stdin" "xml" None = (Return r, evs))
    by (vm_compute; reflexivity).
  split; [exact Hnew|]. split; [reflexivity|].
  exact (valid_saml_has_values env "stdin" "xml" None r evs Hnew eq_refl).
Defined.

(** X7. On every object the constructor returns, what [cert_is_valid]
    answers is whether [get_certificate] holds a handle; and when it
    answers true, the handle is the one the certificate class built from
    the non-empty blob of the parsed object that [get_saml] holds. *)
Theorem cert_flag_matches_handle {Certificate} (env : Env Certificate)
    source input_type filename r evs valid :
  new_TextReader env source input_type filename = (Return r, evs) ->
  cert_is_valid r = Return valid ->
  exists handle,
    get_certificate r = Return handle
    /\ valid = is_not_None handle
    /\ (valid = true ->
        exists obj blob cert,
          get_saml r = Return (Some obj)
          /\ SamlParser.get_certificate obj = Some blob
          /\ blob <> ""
          /\ Certificate_new env blob = Return cert
          /\ handle = Some cert).
Proof.
  intros Hnew Hvalid.
  destruct (new_TextReader_resolved env _ _ _ _ _ Hnew) as (fr & _ & _ & Hres).
  inversion Hres as [| | |t obj cert Henc Hreq Hself Hfound Htruthy Hcert|];
    subst; try discriminate Hvalid; injection Hvalid as <-.
  - eexists. split; [reflexivity|]. split; [reflexivity|]. discriminate.
  - eexists. split; [reflexivity|]. split; [reflexivity|]. intros _.
    destruct (truthy_blob _ Htruthy) as [Hsome Hblob].
    by exists obj, (default "" (SamlParser.get_certificate obj)), cert.
  - eexists. split; [reflexivity|]. split; [reflexivity|]. discriminate.
Qed.

Lemma cert_flag_matches_handle_witness :
  let env := piped_env (Return response_with_certificate)
                       (Return response_with_certificate) Return in
  let r := mkTextReader (Some []) (Some true) (Some "strict")
             (Some (Some response_with_certificate)) (Some true) (Some (Some "MIIC")) in
  let evs := [EvStdin; EvFromXml Standard piped_data; EvUsedRelaxedParser;
              EvFoundAnyValues; EvGetCertificate; EvCertificate "MIIC"] in
  new_TextReader env "stdin" "xml" None = (Return r, evs)
  /\ cert_is_valid r = Return true
  /\ exists handle,
       get_certificate r = Return handle
       /\ true = is_not_None handle
       /\ (true = true ->
           exists obj blob cert,
             get_saml r = Return (Some obj)
             /\ SamlParser.get_certificate obj = Some blob
             /\ blob <> ""
             /\ Certificate_new env blob = Return cert
             /\ handle = Some cert).
Proof.
  intros env r evs.
  assert (Hnew : new_TextReader env "stdin" "xml" None = (Return r, evs))
    by (vm_compute; reflexivity).
  split; [exact Hnew|]. split; [reflexivity|].
  exact (cert_flag_matches_handle env "stdin" "xml" None r evs true Hnew eq_refl).
Defined.

(** X8. On every object the constructor returns, the error list is
    empty exactly when [saml_is_valid] and [cert_is_valid] both answer
    true and the strict parser was used; so an object that is not valid
    always carries a message. *)
Theorem no_errors_iff_all_valid {Certificate} (env : Env Certificate)
    source input_type filename r evs :
  new_TextReader env source input_type filename = (Return r, evs) ->
  get_errors r = Return []
  <-> (saml_is_valid r = Return true
       /\ cert_is_valid r = Return true
       /\ _parser_used r = Some "strict").
Proof.
  intros Hnew.
  destruct (new_TextReader_resolved env _ _ _ _ _ Hnew) as (fr & _ & _ & Hres).
  inversion Hres; subst; cbn; split.
  all: try (intros [= Hnil]; by apply app_eq_nil in Hnil as [_ ?]).
  all: try (intros (Hs & Hc & _); discriminate Hs || discriminate Hc).
  - intros [= Hnil]. apply fallback_messages_nil in Hnil as ->. done.
  - intros (_ & _ & [= ->]). by rewrite fallback_messages_strict.
Qed.

Lemma no_errors_iff_all_valid_witness :
  let env := piped_env (Return response_without_values)
                       (Return response_without_values) Return in
  let r := mkTextReader (Some [no_data_message]) (Some false) (Some "strict")
             (Some (Some response_without_values)) (Some false) (Some None) in
  let evs := [EvStdin; EvFromXml Standard piped_data; EvUsedRelaxedParser;
              EvFoundAnyValues] in
  new_TextReader env "stdin" "xml" None = (Return r, evs)
  /\ (get_errors r = Return []
      <-> (saml_is_valid r = Return true
           /\ cert_is_valid r = Return true
           /\ _parser_used r = Some "strict")).
Proof.
  intros env r evs.
  assert (Hnew : new_TextReader env "stdin" "xml" None = (Return r, evs))
    by (vm_compute; reflexivity).
  split; [exact Hnew|].
  exact (no_errors_iff_all_valid env "stdin" "xml" None r evs Hnew).
Defined.

Lemma resolved_errors_short {Certificate} (env : Env Certificate) fr r evs :
  resolved env fr r evs ->
  exists t tail,
    _errors r = Some (fallback_messages t ++ tail)
    /\ length tail <= 1
    /\ Forall (fun msg => ~ is_fallback_warning msg) tail.
Proof.
  intros [t s Henc Hself|t s Henc Hreq Hself|t obj Henc Hreq Hself Hfound
         |t obj cert Henc Hreq Hself Hfound Htruthy Hcert
         |t obj Henc Hreq Hself Hfound Htruthy]; cbn.
  - exists t, [encrypted_advisory].
    repeat split; repeat constructor. apply encrypted_advisory_not_warning.
  - exists t, [request_advisory].
    repeat split; repeat constructor. apply request_advisory_not_warning.
  - exists t, [no_data_message].
    repeat split; repeat constructor. apply no_data_message_not_warning.
  - exists t, []. rewrite app_nil_r. repeat split; repeat constructor.
  - exists t, [no_certificate_message].
    repeat split; repeat constructor. apply no_certificate_message_not_warning.
Qed.

(** X9. On every object the constructor returns, the error list is at
    most one fallback warning followed by at most one other message. *)
Theorem at_most_two_messages {Certificate} (env : Env Certificate)
    source input_type filename r evs errs :
  new_TextReader env source input_type filename = (Return r, evs) ->
  get_errors r = Return errs ->
  exists warnings rest,
    errs = warnings ++ rest
    /\ length warnings <= 1
    /\ length rest <= 1
    /\ Forall is_fallback_warning warnings
    /\ Forall (fun msg => ~ is_fallback_warning msg) rest.
Proof.
  intros Hnew Herrs.
  destruct (new_TextReader_resolved env _ _ _ _ _ Hnew) as (fr & _ & _ & Hres).
  destruct (resolved_errors_short env _ _ _ Hres) as (t & tail & Hr & Hlen & Htail).
  unfold get_errors in Herrs. rewrite Hr in Herrs. injection Herrs as <-.
  exists (fallback_messages t), tail.
  split; [done|]. split; [apply fallback_messages_length|]. split; [done|].
  split; [|done].
  unfold fallback_messages. case_decide; repeat constructor. by eexists.
Qed.

Lemma at_most_two_messages_witness :
  let env := piped_env (Raise SamlParsingError)
                       (Return response_without_values) Return in
  let errs := [fallback_warning "regex"; no_data_message] in
  let r := mkTextReader (Some errs) (Some false) (Some "regex")
             (Some (Some response_without_values)) (Some false) (Some None) in
  let evs := [EvStdin; EvFromXml Standard piped_data; EvFromXml Regex piped_data;
              EvFoundAnyValues] in
  new_TextReader env "stdin" "xml" None = (Return r, evs)
  /\ get_errors r = Return errs
  /\ exists warnings rest,
       errs = warnings ++ rest
       /\ length warnings <= 1
       /\ length rest <= 1
       /\ Forall is_fallback_warning warnings
       /\ Forall (fun msg => ~ is_fallback_warning msg) rest.
Proof.
  intros env errs r evs.
  assert (Hnew : new_TextReader env "stdin" "xml" None = (Return r, evs))
    by (vm_compute; reflexivity).
  split; [exact Hnew|]. split; [reflexivity|].
  exact (at_most_two_messages env "stdin" "xml" None r evs errs Hnew eq_refl).
Defined.

(** X10. On every object the constructor returns, [get_saml],
    [saml_is_valid] and [get_errors] answer; [cert_is_valid] and
    [get_certificate] answer exactly when the parse attempts ended in
    success, and otherwise raise the [AttributeError] of the attribute
    that was never assigned. *)
Theorem queries_that_answer {Certificate} (env : Env Certificate)
    source input_type filename r evs fr :
  new_TextReader env source input_type filename = (Return r, evs) ->
  orchestrate env source input_type filename fresh_frame = (Return tt, fr) ->
  (exists saml, get_saml r = Return saml)
  /\ (exists valid, saml_is_valid r = Return valid)
  /\ (exists errs, get_errors r = Return errs)
  /\ ((exists valid, cert_is_valid r = Return valid) <-> terminal_outcome fr = Success)
  /\ ((exists cert, get_certificate r = Return cert) <-> terminal_outcome fr = Success)
  /\ (terminal_outcome fr <> Success ->
      cert_is_valid r
      = Raise (AttributeError "'TextReader' object has no attribute '_valid_cert'")
      /\ get_certificate r
         = Raise (AttributeError "'TextReader' object has no attribute '_cert'")).
Proof.
  intros Hnew Ho.
  destruct (new_TextReader_resolved env _ _ _ _ _ Hnew) as (fr' & Ho' & _ & Hres).
  assert (fr' = fr) as -> by congruence.
  unfold terminal_outcome.
  inversion Hres as [t s Henc Hself|t s Henc Hreq Hself|t obj Henc Hreq Hself Hfound
                    |t obj cert Henc Hreq Hself Hfound Htruthy Hcert
                    |t obj Henc Hreq Hself Hfound Htruthy]; subst;
    rewrite ?Henc, ?Hreq; cbn.
  all: split; [by eexists|]; split; [by eexists|]; split; [by eexists|].
  all: split; [split; [try by intros []; try done | try discriminate; by eexists]|].
  all: split; [split; [try by intros []; try done | try discriminate; by eexists]|].
  all: first [ by intros _ | intros Hne; by destruct Hne ].
Qed.

Lemma queries_that_answer_witness :
  let env := piped_env (Raise (IsASamlRequest "strict"))
                       (Return response_with_certificate) Return in
  let r := mkTextReader (Some [request_advisory]) (Some false) (Some "strict")
             (Some None) None None in
  let fr := mkFrame
              (mkTextReader (Some []) (Some false) (Some "strict") (Some None) None None)
              false true [EvStdin; EvFromXml Standard piped_data] in
  new_TextReader env "stdin" "xml" None = (Return r, log fr)
  /\ orchestrate env "stdin" "xml" None fresh_frame = (Return tt, fr)
  /\ terminal_outcome fr <> Success
  /\ (exists saml, get_saml r = Return saml)
  /\ (exists valid, saml_is_valid r = Return valid)
  /\ (exists errs, get_errors r = Return errs)
  /\ cert_is_valid r
     = Raise (AttributeError "'TextReader' object has no attribute '_valid_cert'")
  /\ get_certificate r
     = Raise (AttributeError "'TextReader' object has no attribute '_cert'").
Proof.
  intros env r fr.
  assert (Hnew : new_TextReader env "stdin" "xml" None = (Return r, log fr))
    by (vm_compute; reflexivity).
  assert (Ho : orchestrate env "stdin" "xml" None fresh_frame = (Return tt, fr))
    by (vm_compute; reflexivity).
  assert (Hout : terminal_outcome fr <> Success) by (vm_compute; discriminate).
  destruct (queries_that_answer env "stdin" "xml" None r (log fr) fr Hnew Ho)
    as (Hsaml & Hvalid & Herrs & _ & _ & Hraise).
  destruct (Hraise Hout) as [Hcv Hgc].
  split; [exact Hnew|]. split; [exact Ho|]. split; [exact Hout|].
  split; [exact Hsaml|]. split; [exact Hvalid|]. split; [exact Herrs|].
  split; [exact Hcv | exact Hgc].
Defined.

(** ** The parser the object names *)

Lemma orchestrate_success_inv {Certificate} (env : Env Certificate)
    source input_type filename fr :
  orchestrate env source input_type filename fresh_frame = (Return tt, fr) ->
  terminal_outcome fr = Success ->
  exists data obj,
    acquired env source filename = Return data
    /\ ((attempt env (lower input_type) data Standard = Return obj
         /\ self fr
            = mkTextReader (Some []) (Some true)
                (Some (if SamlParser.used_relaxed_parser obj then "relaxed" else "strict"))
                (Some (Some obj)) None None)
        \/ (attempt env (lower input_type) data Standard = Raise SamlParsingError
            /\ attempt env (lower input_type) data Regex = Return obj
            /\ self fr
               = mkTextReader (Some []) (Some true) (Some "regex")
                   (Some (Some obj)) None None)).
Proof.
  unfold orchestrate, check_input_type, standard_attempt, regex_attempt.
  walk.
  all: intros [= <-] Hout; try discriminate Hout; clear Hout.
  all: eexists _, _; split; [reflexivity|].
  all: first
    [ left; split; [eassumption|];
      match goal with H : SamlParser.used_relaxed_parser _ = _ |- _ => rewrite H end;
      reflexivity
    | right; split; [eassumption|]; split; [eassumption|]; reflexivity ].
Qed.

(** X11. When the parse attempts end in success, the parser the object
    names is the one that produced the object it holds: ['strict'] or
    ['relaxed'] when the standard parser returned it, according to
    whether the object reports the relaxed mode, and ['regex'] exactly
    when the standard parser failed generically and the regex parser
    returned it. *)
Theorem parser_used_names_producer {Certificate} (env : Env Certificate)
    source input_type filename r evs fr :
  new_TextReader env source input_type filename = (Return r, evs) ->
  orchestrate env source input_type filename fresh_frame = (Return tt, fr) ->
  terminal_outcome fr = Success ->
  exists data obj,
    acquired env source filename = Return data
    /\ get_saml r = Return (Some obj)
    /\ ((attempt env (lower input_type) data Standard = Return obj
         /\ _parser_used r
            = Some (if SamlParser.used_relaxed_parser obj then "relaxed" else "strict"))
        \/ (attempt env (lower input_type) data Standard = Raise SamlParsingError
            /\ attempt env (lower input_type) data Regex = Return obj
            /\ _parser_used r = Some "regex")).
Proof.
  intros Hnew Ho Hout.
  destruct (orchestrate_success_inv env _ _ _ _ Ho Hout) as (data & obj & Hdata & Hpath).
  destruct (new_TextReader_resolved env _ _ _ _ _ Hnew) as (fr' & Ho' & _ & Hres).
  assert (fr' = fr) as -> by congruence.
  exists data, obj. split; [exact Hdata|].
  destruct Hpath as [[Hstd Hself]|(Hstd & Hregex & Hself)].
  - inversion Hres as [t s Henc Hself'|t s Henc Hreq Hself'|t o Henc Hreq Hself' Hfound
                      |t o cert Henc Hreq Hself' Hfound Htruthy Hcert
                      |t o Henc Hreq Hself' Hfound Htruthy]; subst;
      rewrite Hself in Hself'; try discriminate Hself';
      injection Hself' as <- <-; (split; [reflexivity|]); left; by split.
  - inversion Hres as [t s Henc Hself'|t s Henc Hreq Hself'|t o Henc Hreq Hself' Hfound
                      |t o cert Henc Hreq Hself' Hfound Htruthy Hcert
                      |t o Henc Hreq Hself' Hfound Htruthy]; subst;
      rewrite Hself in Hself'; try discriminate Hself';
      injection Hself' as <- <-; (split; [reflexivity|]); right; by repeat split.
Qed.

Lemma parser_used_names_producer_witness :
  let relaxed := SamlParser.mk true true None in
  let env := piped_env (Return relaxed) (Return response_with_certificate) Return in
  let r := mkTextReader
             (Some [fallback_warning "relaxed"; no_certificate_message])
             (Some true) (Some "relaxed") (Some (Some relaxed))
             (Some false) (Some None) in
  let fr := mkFrame
              (mkTextReader (Some []) (Some true) (Some "relaxed")
                 (Some (Some relaxed)) None None)
              false false
              [EvStdin; EvFromXml Standard piped_data; EvUsedRelaxedParser] in
  let evs := log fr ++ [EvFoundAnyValues; EvGetCertificate] in
  new_TextReader env "stdin" "xml" None = (Return r, evs)
  /\ orchestrate env "stdin" "xml" None fresh_frame = (Return tt, fr)
  /\ terminal_outcome fr = Success
  /\ exists data obj,
       acquired env "stdin" None = Return data
       /\ get_saml r = Return (Some obj)
       /\ ((attempt env (lower "xml") data Standard = Return obj
            /\ _parser_used r
               = Some (if SamlParser.used_relaxed_parser obj
                       then "relaxed" else "strict"))
           \/ (attempt env (lower "xml") data Standard = Raise SamlParsingError
               /\ attempt env (lower "xml") data Regex = Return obj
               /\ _parser_used r = Some "regex")).
Proof.
  intros relaxed env r fr evs.
  assert (Hnew : new_TextReader env "stdin" "xml" None = (Return r, evs))
    by (vm_compute; reflexivity).
  assert (Ho : orchestrate env "stdin" "xml" None fresh_frame = (Return tt, fr))
    by (vm_compute; reflexivity).
  split; [exact Hnew|]. split; [exact Ho|]. split; [reflexivity|].
  exact (parser_used_names_producer env "stdin" "xml" None r evs fr Hnew Ho eq_refl).
Defined.

(** ** Exceptions no handler names *)

(** X12. An exception of the standard attempt other than the three the
    first [try] statement handles reaches the caller unchanged; the
    regex parser is not tried. *)
Theorem standard_exception_propagates {Certificate} (env : Env Certificate)
    source input_type filename data e :
  lower input_type ∈ VALID_INPUT_TYPES ->
  acquired env source filename = Return data ->
  attempt env (lower input_type) data Standard = Raise e ->
  ~ caught_by_standard_attempt (Raise e) ->
  new_TextReader env source input_type filename
  = (Raise e,
     acquire_log env source filename
     ++ attempt_log env (lower input_type) data Standard)
  /\ no_regex_call (new_TextReader env source input_type filename).2.
Proof.
  intros Hty Hdata Hstd Hcaught.
  assert (Hnew : new_TextReader env source input_type filename
                 = (Raise e,
                    acquire_log env source filename
                    ++ attempt_log env (lower input_type) data Standard)).
  { unfold new_TextReader, __init__, orchestrate, check_input_type, standard_attempt.
    destruct e; try (exfalso; apply Hcaught; exact I); walk; reflexivity. }
  split; [exact Hnew|]. rewrite Hnew. cbn.
  apply Forall_app_2; [apply acquire_log_no_regex | apply standard_log_no_regex].
Qed.

Lemma standard_exception_propagates_witness :
  let env := mkEnv string (Return "") (Return ["not a capture"])
               (fun _ => Raise (FileNotFoundError ""))
               (constant_parser (Return response_with_certificate))
               (constant_parser (Return response_with_certificate))
               (fun _ => Raise (OtherError "JSONDecodeError")) Return in
  lower "har" ∈ VALID_INPUT_TYPES
  /\ acquired env "stdin" None = Return "not a capture"
  /\ attempt env (lower "har") "not a capture" Standard
     = Raise (OtherError "JSONDecodeError")
  /\ ~ caught_by_standard_attempt (Raise (OtherError "JSONDecodeError"))
  /\ new_TextReader env "stdin" "har" None
     = (Raise (OtherError "JSONDecodeError"),
        acquire_log env "stdin" None
        ++ attempt_log env (lower "har") "not a capture" Standard)
  /\ no_regex_call (new_TextReader env "stdin" "har" None).2.
Proof.
  intros env.
  assert (Hty : lower "har" ∈ VALID_INPUT_TYPES).
  { apply elem_of_VALID_INPUT_TYPES. vm_compute. auto. }
  assert (Hdata : acquired env "stdin" None = Return "not a capture")
    by (vm_compute; reflexivity).
  assert (Hstd : attempt env (lower "har") "not a capture" Standard
                 = Raise (OtherError "JSONDecodeError"))
    by (vm_compute; reflexivity).
  assert (Hcaught : ~ caught_by_standard_attempt (Raise (OtherError "JSONDecodeError")))
    by (intros []).
  repeat (split; [assumption|]).
  exact (standard_exception_propagates env "stdin" "har" None "not a capture"
           (OtherError "JSONDecodeError") Hty Hdata Hstd Hcaught).
Defined.

(** X13. After a generic failure of the standard parser, an exception of
    the regex attempt other than the two the second [try] statement
    handles reaches the caller unchanged; a generic failure of the regex
    parser is among them. *)
Theorem regex_exception_propagates {Certificate} (env : Env Certificate)
    source input_type filename data e :
  lower input_type ∈ VALID_INPUT_TYPES ->
  acquired env source filename = Return data ->
  attempt env (lower input_type) data Standard = Raise SamlParsingError ->
  attempt env (lower input_type) data Regex = Raise e ->
  ~ caught_by_regex_attempt (Raise e) ->
  new_TextReader env source input_type filename
  = (Raise e,
     (acquire_log env source filename
      ++ attempt_log env (lower input_type) data Standard)
     ++ attempt_log env (lower input_type) data Regex).
Proof.
  intros Hty Hdata Hstd Hregex Hcaught.
  pose proof (orchestrate_fallback env _ _ _ _ Hty Hdata Hstd) as Ho.
  cbn zeta in Ho. rewrite Hregex in Ho.
  destruct e; try (exfalso; apply Hcaught; exact I).
  all: by destruct (orchestrate_raise_propagates env _ _ _ _ _ Ho) as [_ ->].
Qed.

Lemma regex_exception_propagates_witness :
  let env := piped_env (Raise SamlParsingError) (Raise SamlParsingError) Return in
  lower "xml" ∈ VALID_INPUT_TYPES
  /\ acquired env "stdin" None = Return piped_data
  /\ attempt env (lower "xml") piped_data Standard = Raise SamlParsingError
  /\ attempt env (lower "xml") piped_data Regex = Raise SamlParsingError
  /\ ~ caught_by_regex_attempt (Raise SamlParsingError)
  /\ new_TextReader env "stdin" "xml" None
     = (Raise SamlParsingError,
        (acquire_log env "stdin" None
         ++ attempt_log env (lower "xml") piped_data Standard)
        ++ attempt_log env (lower "xml") piped_data Regex).
Proof.
  intros env.
  assert (Hty : lower "xml" ∈ VALID_INPUT_TYPES).
  { apply elem_of_VALID_INPUT_TYPES. vm_compute. auto. }
  assert (Hdata : acquired env "stdin" None = Return piped_data)
    by (vm_compute; reflexivity).
  assert (Hstd : attempt env (lower "xml") piped_data Standard = Raise SamlParsingError)
    by (vm_compute; reflexivity).
  assert (Hregex : attempt env (lower "xml") piped_data Regex = Raise SamlParsingError)
    by (vm_compute; reflexivity).
  assert (Hcaught : ~ caught_by_regex_attempt (Raise SamlParsingError))
    by (intros []).
  repeat (split; [assumption|]).
  exact (regex_exception_propagates env "stdin" "xml" None piped_data SamlParsingError
           Hty Hdata Hstd Hregex Hcaught).
Defined.

(** ** The fallback *)

Lemma attempt_log_retarget {Certificate} (env : Env Certificate) input_type data :
  attempt_log env input_type data Regex
  = map (retarget Regex) (attempt_log env input_type data Standard).
Proof.
  unfold attempt_log, _parse_raw_data.
  repeat case_decide; exec; cbn; try reflexivity.
  by destruct (HarParser_parse env data).
Qed.

(** X14. After a generic failure of the standard parser, the regex
    attempt repeats the calls of the standard attempt on the same
    arguments, with the regex parser in place of the standard one: the
    same raw data is parsed again, and for a HAR input the HAR parser is
    run a second time.  Nothing but calls of the resolver follows. *)
Theorem fallback_repeats_calls {Certificate} (env : Env Certificate)
    source input_type filename data :
  lower input_type ∈ VALID_INPUT_TYPES ->
  acquired env source filename = Return data ->
  attempt env (lower input_type) data Standard = Raise SamlParsingError ->
  exists post,
    (new_TextReader env source input_type filename).2
    = acquire_log env source filename
      ++ attempt_log env (lower input_type) data Standard
      ++ map (retarget Regex) (attempt_log env (lower input_type) data Standard)
      ++ post
    /\ resolver_calls post.
Proof.
  intros Hty Hdata Hstd.
  pose proof (orchestrate_fallback env _ _ _ _ Hty Hdata Hstd) as Ho.
  cbn zeta in Ho.
  destruct (run_log env source input_type filename)
    as (res & fr & post & Ho' & -> & Hpost).
  exists post. split; [|done].
  rewrite <- attempt_log_retarget, !app_assoc. f_equal.
  rewrite Ho' in Ho.
  destruct (attempt env (lower input_type) data Regex) as [|[]];
    by injection Ho as _ ->.
Qed.

Lemma fallback_repeats_calls_witness :
  let env := mkEnv string (Return "") (Return ["{"; "}"])
               (fun _ => Raise (FileNotFoundError ""))
               (constant_parser (Raise SamlParsingError))
               (constant_parser (Return response_without_values))
               (fun _ => Return "PHNhbWw+") Return in
  lower "HAR" ∈ VALID_INPUT_TYPES
  /\ acquired env "stdin" None = Return "{}"
  /\ attempt env (lower "HAR") "{}" Standard = Raise SamlParsingError
  /\ (new_TextReader env "stdin" "HAR" None).2
     = [EvStdin;
        EvHarParse "{}"; EvFromBase64 Standard "PHNhbWw+";
        EvHarParse "{}"; EvFromBase64 Regex "PHNhbWw+";
        EvFoundAnyValues]
  /\ exists post,
       (new_TextReader env "stdin" "HAR" None).2
       = acquire_log env "stdin" None
         ++ attempt_log env (lower "HAR") "{}" Standard
         ++ map (retarget Regex) (attempt_log env (lower "HAR") "{}" Standard)
         ++ post
       /\ resolver_calls post.
Proof.
  intros env.
  assert (Hty : lower "HAR" ∈ VALID_INPUT_TYPES).
  { apply elem_of_VALID_INPUT_TYPES. vm_compute. auto. }
  assert (Hdata : acquired env "stdin" None = Return "{}")
    by (vm_compute; reflexivity).
  assert (Hstd : attempt env (lower "HAR") "{}" Standard = Raise SamlParsingError)
    by (vm_compute; reflexivity).
  repeat (split; [assumption|]).
  split; [vm_compute; reflexivity|].
  exact (fallback_repeats_calls env "stdin" "HAR" None "{}" Hty Hdata Hstd).
Defined.

(** ** A terminal failure labelled ['regex'] *)

(** The frames the parse attempts end in when the standard parser fails
    with a terminal condition whose label is ['regex']: the regex
    attempt runs, and the local set by the first handler stays set. *)
Lemma orchestrate_relabelled {Certificate} (env : Env Certificate)
    source input_type filename data e o :
  lower input_type ∈ VALID_INPUT_TYPES ->
  acquired env source filename = Return data ->
  attempt env (lower input_type) data Standard = Raise e ->
  terminal_condition e = Some (o, "regex") ->
  let evs := (acquire_log env source filename
              ++ attempt_log env (lower input_type) data Standard)
             ++ attempt_log env (lower input_type) data Regex in
  let encrypted := match o with EncryptedResponse => true | _ => false end in
  let request := match o with IsARequest => true | _ => false end in
  orchestrate env source input_type filename fresh_frame
  = match attempt env (lower input_type) data Regex with
    | Return obj =>
        (Return tt,
         mkFrame (mkTextReader (Some []) (Some false) (Some "regex") (Some (Some obj))
                    None None) encrypted request evs)
    | Raise (SamlResponseEncryptedError _) =>
        (Return tt,
         mkFrame (mkTextReader (Some []) (Some false) (Some "regex") (Some None)
                    None None) true request evs)
    | Raise (IsASamlRequest _) =>
        (Return tt,
         mkFrame (mkTextReader (Some []) (Some false) (Some "regex") (Some None)
                    None None) encrypted true evs)
    | Raise e' =>
        (Raise e',
         mkFrame (mkTextReader (Some []) (Some false) (Some "regex") (Some None)
                    None None) encrypted request evs)
    end.
Proof.
  intros Hty Hdata Hstd Hcond.
  destruct e; try discriminate Hcond; injection Hcond as <- ->.
  all: unfold orchestrate, check_input_type, standard_attempt, regex_attempt.
  all: walk; reflexivity.
Qed.

(** X15. When the standard parser fails with the encrypted-response or
    the is-a-request condition under the label ['regex'] and the regex
    parser then returns an object, the constructor returns an object on
    which [get_saml] holds what the regex parser returned while
    [saml_is_valid] answers false and the error list is the fallback
    warning followed by the advisory of the standard parser's
    condition. *)
Theorem relabelled_failure_keeps_regex_object {Certificate} (env : Env Certificate)
    source input_type filename data e o obj :
  lower input_type ∈ VALID_INPUT_TYPES ->
  acquired env source filename = Return data ->
  attempt env (lower input_type) data Standard = Raise e ->
  terminal_condition e = Some (o, "regex") ->
  attempt env (lower input_type) data Regex = Return obj ->
  exists r evs,
    new_TextReader env source input_type filename = (Return r, evs)
    /\ get_saml r = Return (Some obj)
    /\ saml_is_valid r = Return false
    /\ get_errors r = Return (fallback_warning "regex" :: advisory o).
Proof.
  intros Hty Hdata Hstd Hcond Hregex.
  pose proof (orchestrate_relabelled env _ _ _ _ _ _ Hty Hdata Hstd Hcond) as Ho.
  cbn zeta in Ho. rewrite Hregex in Ho.
  destruct (terminal_outcome_run env _ _ _ _ Ho) as (t & s & Hself & ->).
  { destruct e; try discriminate Hcond; injection Hcond as <- _; discriminate. }
  injection Hself as <- <-.
  eexists _, _. split; [reflexivity|]. split; [reflexivity|]. split; [reflexivity|].
  rewrite fallback_messages_other by discriminate.
  destruct e; try discriminate Hcond; by injection Hcond as <- _.
Qed.

Lemma relabelled_failure_keeps_regex_object_witness :
  let env := piped_env (Raise (SamlResponseEncryptedError "regex"))
                       (Return response_with_certificate) Return in
  lower "xml" ∈ VALID_INPUT_TYPES
  /\ acquired env "stdin" None = Return piped_data
  /\ attempt env (lower "xml") piped_data Standard
     = Raise (SamlResponseEncryptedError "regex")
  /\ attempt env (lower "xml") piped_data Regex = Return response_with_certificate
  /\ exists r evs,
       new_TextReader env "stdin" "xml" None = (Return r, evs)
       /\ get_saml r = Return (Some response_with_certificate)
       /\ saml_is_valid r = Return false
       /\ get_errors r = Return [fallback_warning "regex"; encrypted_advisory].
Proof.
  intros env.
  assert (Hty : lower "xml" ∈ VALID_INPUT_TYPES).
  { apply elem_of_VALID_INPUT_TYPES. vm_compute. auto. }
  assert (Hdata : acquired env "stdin" None = Return piped_data)
    by (vm_compute; reflexivity).
  assert (Hstd : attempt env (lower "xml") piped_data Standard
                 = Raise (SamlResponseEncryptedError "regex"))
    by (vm_compute; reflexivity).
  assert (Hregex : attempt env (lower "xml") piped_data Regex
                   = Return response_with_certificate)
    by (vm_compute; reflexivity).
  repeat (split; [assumption|]).
  exact (relabelled_failure_keeps_regex_object env "stdin" "xml" None piped_data
           (SamlResponseEncryptedError "regex") EncryptedResponse
           response_with_certificate Hty Hdata Hstd eq_refl Hregex).
Defined.

(** X16. When the two attempts report the two different terminal
    conditions (the standard parser one of them under the label
    ['regex'], the regex parser the other), the object returned carries
    the encrypted-response advisory, whichever attempt reported it, and
    not the is-a-request advisory. *)
Theorem encrypted_advisory_takes_precedence {Certificate} (env : Env Certificate)
    source input_type filename data e1 o1 e2 o2 label :
  lower input_type ∈ VALID_INPUT_TYPES ->
  acquired env source filename = Return data ->
  attempt env (lower input_type) data Standard = Raise e1 ->
  terminal_condition e1 = Some (o1, "regex") ->
  attempt env (lower input_type) data Regex = Raise e2 ->
  terminal_condition e2 = Some (o2, label) ->
  o1 <> o2 ->
  exists r evs,
    new_TextReader env source input_type filename = (Return r, evs)
    /\ get_errors r = Return [fallback_warning "regex"; encrypted_advisory]
    /\ get_saml r = Return None
    /\ saml_is_valid r = Return false.
Proof.
  intros Hty Hdata Hstd Hcond1 Hregex Hcond2 Hdiff.
  pose proof (orchestrate_relabelled env _ _ _ _ _ _ Hty Hdata Hstd Hcond1) as Ho.
  cbn zeta in Ho. rewrite Hregex in Ho.
  destruct e1; try discriminate Hcond1; injection Hcond1 as <- _.
  all: destruct e2; try discriminate Hcond2; injection Hcond2 as <- _; try done.
  all: destruct (terminal_outcome_run env _ _ _ _ Ho) as (t & s & Hself & ->);
    [discriminate|].
  all: injection Hself as <- <-.
  all: eexists _, _; split; [reflexivity|].
  all: rewrite fallback_messages_other by discriminate.
  all: by repeat split.
Qed.

Lemma encrypted_advisory_takes_precedence_witness :
  let env := piped_env (Raise (IsASamlRequest "regex"))
                       (Raise (SamlResponseEncryptedError "regex")) Return in
  lower "xml" ∈ VALID_INPUT_TYPES
  /\ acquired env "stdin" None = Return piped_data
  /\ attempt env (lower "xml") piped_data Standard = Raise (IsASamlRequest "regex")
  /\ attempt env (lower "xml") piped_data Regex
     = Raise (SamlResponseEncryptedError "regex")
  /\ IsARequest <> EncryptedResponse
  /\ exists r evs,
       new_TextReader env "stdin" "xml" None = (Return r, evs)
       /\ get_errors r = Return [fallback_warning "regex"; encrypted_advisory]
       /\ get_saml r = Return None
       /\ saml_is_valid r = Return false.
Proof.
  intros env.
  assert (Hty : lower "xml" ∈ VALID_INPUT_TYPES).
  { apply elem_of_VALID_INPUT_TYPES. vm_compute. auto. }
  assert (Hdata : acquired env "stdin" None = Return piped_data)
    by (vm_compute; reflexivity).
  assert (Hstd : attempt env (lower "xml") piped_data Standard
                 = Raise (IsASamlRequest "regex"))
    by (vm_compute; reflexivity).
  assert (Hregex : attempt env (lower "xml") piped_data Regex
                   = Raise (SamlResponseEncryptedError "regex"))
    by (vm_compute; reflexivity).
  assert (Hdiff : IsARequest <> EncryptedResponse) by discriminate.
  repeat (split; [assumption|]).
  exact (encrypted_advisory_takes_precedence env "stdin" "xml" None piped_data
           (IsASamlRequest "regex") IsARequest
           (SamlResponseEncryptedError "regex") EncryptedResponse "regex"
           Hty Hdata Hstd eq_refl Hregex eq_refl Hdiff).
Defined.

(** ** When the regex parser runs, and on what *)

Lemma no_regex_call_not_exists evs :
  no_regex_call evs -> ~ Exists (fun ev => is_regex_event ev = true) evs.
Proof.
  unfold no_regex_call. intros Hno Hex.
  apply Exists_exists in Hex as (ev & Hin & Hev).
  rewrite Forall_forall in Hno. apply Hno in Hin. congruence.
Qed.

Lemma orchestrate_regex_inv {Certificate} (env : Env Certificate)
    source input_type filename res fr :
  orchestrate env source input_type filename fresh_frame = (res, fr) ->
  Exists (fun ev => is_regex_event ev = true) (log fr) ->
  exists data e,
    acquired env source filename = Return data
    /\ attempt env (lower input_type) data Standard = Raise e
    /\ (e = SamlParsingError \/ exists o, terminal_condition e = Some (o, "regex")).
Proof.
  unfold orchestrate, check_input_type, standard_attempt, regex_attempt.
  walk.
  all: intros [= <- <-] Hex; cbn [log] in Hex.
  all: first
    [ exfalso; revert Hex; apply no_regex_call_not_exists; unfold no_regex_call;
      first
        [ by apply Forall_nil
        | repeat apply Forall_app_2;
          auto using acquire_log_no_regex, standard_log_no_regex;
          by repeat constructor ]
    | subst; eexists _, _; split; [reflexivity|]; split; [eassumption|];
      first [ by left | right; by eexists ] ].
Qed.

(** X17. In every run, returning or raising, the regex parser is called
    only after the standard attempt raised, either the generic parse
    failure or a terminal condition labelled ['regex']; it is never
    called once the standard parser has returned an object. *)
Theorem regex_only_after_standard_failure {Certificate} (env : Env Certificate)
    source input_type filename :
  Exists (fun ev => is_regex_event ev = true)
         (new_TextReader env source input_type filename).2 ->
  exists data e,
    acquired env source filename = Return data
    /\ attempt env (lower input_type) data Standard = Raise e
    /\ (e = SamlParsingError \/ exists o, terminal_condition e = Some (o, "regex")).
Proof.
  destruct (run_log env source input_type filename)
    as (res & fr & post & Ho & -> & Hpost).
  intros [Hex|Hex]%Exists_app.
  - by eapply orchestrate_regex_inv.
  - exfalso. apply Exists_exists in Hex as (ev & Hin & Hev).
    destruct Hpost as [->|[->|[->|(blob & _ & ->)]]];
      repeat (apply elem_of_cons in Hin as [->|Hin]; [discriminate Hev|]);
      by apply elem_of_nil in Hin.
Qed.

Lemma regex_only_after_standard_failure_witness :
  let env := piped_env (Raise SamlParsingError)
                       (Return response_with_certificate) Return in
  Exists (fun ev => is_regex_event ev = true)
         (new_TextReader env "stdin" "xml" None).2
  /\ exists data e,
       acquired env "stdin" None = Return data
       /\ attempt env (lower "xml") data Standard = Raise e
       /\ (e = SamlParsingError \/ exists o, terminal_condition e = Some (o, "regex")).
Proof.
  intros env.
  assert (Hex : Exists (fun ev => is_regex_event ev = true)
                       (new_TextReader env "stdin" "xml" None).2).
  { vm_compute. apply Exists_cons_tl, Exists_cons_tl, Exists_cons_hd. reflexivity. }
  split; [exact Hex|].
  exact (regex_only_after_standard_failure env "stdin" "xml" None Hex).
Defined.

Lemma attempt_log_fed {Certificate} (env : Env Certificate) input_type data parser :
  Forall (fed_from env input_type data) (attempt_log env input_type data parser).
Proof.
  unfold attempt_log, _parse_raw_data.
  repeat case_decide; exec; cbn; subst.
  - constructor; [by left | constructor].
  - constructor; [done | constructor].
  - destruct (HarParser_parse env data) eqn:Hhar; cbn.
    + constructor; [done|]. constructor; [by right | constructor].
    + constructor; [done | constructor].
  - constructor.
Qed.

Lemma acquire_log_fed {Certificate} (env : Env Certificate)
    source filename input_type data :
  Forall (fed_from env input_type data) (acquire_log env source filename).
Proof.
  rewrite acquire_log_source_call. unfold source_call.
  repeat case_decide; by repeat constructor.
Qed.

Lemma orchestrate_fed {Certificate} (env : Env Certificate)
    source input_type filename res fr data :
  orchestrate env source input_type filename fresh_frame = (res, fr) ->
  acquired env source filename = Return data ->
  Forall (fed_from env (lower input_type) data) (log fr).
Proof.
  intros Ho Hdata. revert Ho.
  unfold orchestrate, check_input_type, standard_attempt, regex_attempt.
  walk.
  all: intros [= <- <-]; cbn [log].
  all: repeat apply Forall_app_2; auto using acquire_log_fed, attempt_log_fed.
  all: by repeat constructor.
Qed.

(** X18. In every run that acquired its raw data, each call of a parser
    is of the kind the input type selects and is given that data:
    [from_xml] for ['xml'] and [from_base64] for ['base64'] get the raw
    data itself; for ['har'] the HAR parser gets the raw data and
    [from_base64] gets what the HAR parser returned. *)
Theorem parsers_fed_from_input {Certificate} (env : Env Certificate)
    source input_type filename data :
  acquired env source filename = Return data ->
  Forall (fed_from env (lower input_type) data)
         (new_TextReader env source input_type filename).2.
Proof.
  intros Hdata.
  destruct (run_log env source input_type filename)
    as (res & fr & post & Ho & -> & Hpost).
  apply Forall_app_2; [by eapply orchestrate_fed|].
  destruct Hpost as [->|[->|[->|(blob & _ & ->)]]]; by repeat constructor.
Qed.

Lemma parsers_fed_from_input_witness :
  let env := mkEnv string (Return "") (Return ["{"; "}"])
               (fun _ => Raise (FileNotFoundError ""))
               (constant_parser (Raise SamlParsingError))
               (constant_parser (Return response_without_values))
               (fun _ => Return "PHNhbWw+") Return in
  acquired env "stdin" None = Return "{}"
  /\ Forall (fed_from env (lower "HAR") "{}")
            [EvStdin;
             EvHarParse "{}"; EvFromBase64 Standard "PHNhbWw+";
             EvHarParse "{}"; EvFromBase64 Regex "PHNhbWw+";
             EvFoundAnyValues].
Proof.
  intros env.
  assert (Hdata : acquired env "stdin" None = Return "{}")
    by (vm_compute; reflexivity).
  split; [exact Hdata|].
  exact (parsers_fed_from_input env "stdin" "HAR" None "{}" Hdata).
Defined.
